(** * Docling web front-end: a shallow embedding of the UI glue

    Two programs are embedded, each in a module of its own:
    - [Basic]    : src/docling_ui.py
    - [Enhanced] : src/docling-enhanced/docling_ui.py

    Python [str] values are modelled as [string] (byte strings; non-ASCII
    literals of the source are kept as their UTF-8 bytes).  On ASCII text a
    byte is a character: there [str.lower], the classes [\d] and [\s] of a
    [str] pattern, [len] and slicing are the functions of [PyStr], and
    the statements that depend on them are made for ASCII text
    ([PyStr.is_ascii]).  The interpreter is taken with its default
    settings, under which [int] refuses a decimal string of more than
    4300 digits with a [ValueError].  Dictionaries are [gmap]s, lists are
    [list]s, objects that are shared by reference live in a store indexed by
    locations.  The conversion library and the clock are external: they
    are arguments of the embedded functions ([Env]).

    What is left out: the Streamlit widgets (progress bars, expanders, text
    areas) and the thread that repaints the page progress, which feed
    nothing back into the results.  The widget calls, the creation of the
    temporary file and [os.unlink] are taken not to raise; the exceptions
    considered are the instances of [Exception] raised by the conversion
    library, which is what [except Exception] catches. *)

From Stdlib Require Import String Ascii ZArith List Bool Lia.
From stdpp Require Import base option list gmap strings pretty.

Local Open Scope string_scope.

(** ** Python string primitives *)

Module PyStr.

(** [c.lower()] on one ASCII character. *)
Definition lower_char (c : ascii) : ascii :=
  let n := nat_of_ascii c in
  if (65 <=? n)%nat && (n <=? 90)%nat then ascii_of_nat (n + 32) else c.

(** [s.lower()] on ASCII text; other bytes are left as they are. *)
Fixpoint lower (s : string) : string :=
  match s with
  | EmptyString => EmptyString
  | String c s' => String (lower_char c) (lower s')
  end.

(** [s.startswith(p)] *)
Fixpoint startswith (p s : string) : bool :=
  match p, s with
  | EmptyString, _ => true
  | String a p', String b s' => if Ascii.eqb a b then startswith p' s' else false
  | String _ _, EmptyString => false
  end.

(** [p in s] for strings: [p] occurs as a contiguous substring of [s]. *)
Fixpoint contains (p s : string) : bool :=
  startswith p s ||
  match s with
  | EmptyString => false
  | String _ s' => contains p s'
  end.

(** [s.split(c)] for a one-character separator: never the empty list. *)
Fixpoint split (c : ascii) (s : string) : list string :=
  match s with
  | EmptyString => [EmptyString]
  | String a s' =>
      if Ascii.eqb a c then EmptyString :: split c s'
      else match split c s' with
           | [] => [String a EmptyString]
           | h :: t => String a h :: t
           end
  end.

(** [l[-1]] on a list of strings that is known to be non-empty; the
    default is never reached on the result of [split]. *)
Definition last_item (l : list string) : string := List.last l EmptyString.

(** [s.rfind(c)]: index of the last occurrence of [c], or [-1]. *)
Fixpoint rfind (c : ascii) (s : string) : Z :=
  match s with
  | EmptyString => (-1)%Z
  | String a s' =>
      let r := rfind c s' in
      if (0 <=? r)%Z then (r + 1)%Z
      else if Ascii.eqb a c then 0%Z else (-1)%Z
  end.

(** [s[:i]] and [s[i:]] for [0 <= i]. *)
Definition take (i : nat) (s : string) : string := substring 0 i s.
Definition drop (i : nat) (s : string) : string := substring i (String.length s - i) s.

(** [s.rsplit(c, 1)]: split once at the last occurrence of [c]. *)
Definition rsplit1 (c : ascii) (s : string) : list string :=
  let r := rfind c s in
  if (0 <=? r)%Z then [take (Z.to_nat r) s; drop (S (Z.to_nat r)) s] else [s].

(** [l[0]] on a list of strings known to be non-empty. *)
Definition first_item (l : list string) : string := List.hd EmptyString l.

(** The text consists of ASCII characters only: [s.isascii()]. *)
Definition is_ascii (s : string) : bool :=
  forallb (fun c => (nat_of_ascii c <? 128)%nat) (list_ascii_of_string s).

(** The decimal digits among the ASCII characters: what [\d] matches in
    ASCII text. *)
Definition is_digit (c : ascii) : bool :=
  let n := nat_of_ascii c in (48 <=? n)%nat && (n <=? 57)%nat.

(** The white space among the ASCII characters, which is what [\s]
    matches in ASCII text: space, \t \n \v \f \r and the separators
    0x1c-0x1f. *)
Definition is_space (c : ascii) : bool :=
  let n := nat_of_ascii c in
  (n =? 32)%nat || ((9 <=? n)%nat && (n <=? 13)%nat) || ((28 <=? n)%nat && (n <=? 31)%nat).

Definition digit_val (c : ascii) : Z := Z.of_nat (nat_of_ascii c - 48).

(** The number written by a string of ASCII decimal digits. *)
Definition int_of_digits (ds : string) : Z :=
  fold_left (fun acc c => (10 * acc + digit_val c)%Z) (list_ascii_of_string ds) 0%Z.

(** The interpreter's default limit on the digits of a decimal string. *)
Definition max_str_digits : nat := 4300.

(** [int(ds)] for a string of ASCII decimal digits: integers are
    unbounded, but a string of more than [max_str_digits] digits raises
    [ValueError], which is [None] here. *)
Definition py_int (ds : string) : option Z :=
  if (max_str_digits <? String.length ds)%nat then None else Some (int_of_digits ds).

#[global] Arguments max_str_digits : simpl never.

(** The longest prefix of digits of [s], and what follows it: the greedy
    match of [\d*]. *)
Fixpoint span_digits (s : string) : string * string :=
  match s with
  | EmptyString => (EmptyString, EmptyString)
  | String c s' =>
      if is_digit c then let '(d, r) := span_digits s' in (String c d, r)
      else (EmptyString, s)
  end.

(** What is left of [s] after the greedy match of [\s*]. *)
Fixpoint skip_spaces (s : string) : string :=
  match s with
  | EmptyString => EmptyString
  | String c s' => if is_space c then skip_spaces s' else s
  end.

(** [s] with the prefix [p] removed, when [s] starts with [p]. *)
Fixpoint strip_prefix (p s : string) : option string :=
  match p, s with
  | EmptyString, _ => Some s
  | String a p', String b s' => if Ascii.eqb a b then strip_prefix p' s' else None
  | String _ _, EmptyString => None
  end.

End PyStr.

(** ** pathlib *)

Module PyPath.
Import PyStr.

(** [PurePosixPath(s).name]: the last component of [s] once the empty and
    the [.] components are dropped, or the empty string if none is left.
    [suffix] and [stem] below are those of CPython up to 3.13. *)
Definition is_component (x : string) : bool :=
  negb (String.eqb x "") && negb (String.eqb x ".").

Definition name (s : string) : string :=
  List.last (List.filter is_component (split "/" s)) EmptyString.

(** [PurePath.suffix]:
    [i = name.rfind('.'); name[i:] if 0 < i < len(name) - 1 else ''] *)
Definition suffix (s : string) : string :=
  let n := name s in
  let i := rfind "." n in
  if (0 <? i)%Z && (i <? Z.of_nat (String.length n) - 1)%Z
  then drop (Z.to_nat i) n else EmptyString.

(** [PurePath.stem]:
    [i = name.rfind('.'); name[:i] if 0 < i < len(name) - 1 else name] *)
Definition stem (s : string) : string :=
  let n := name s in
  let i := rfind "." n in
  if (0 <? i)%Z && (i <? Z.of_nat (String.length n) - 1)%Z
  then take (Z.to_nat i) n else n.

End PyPath.

(** ** Python values, exceptions and the external collaborators *)

(** The values stored in result dictionaries.  Floats only occur as
    durations read off the clock; they are modelled as integer ticks. *)
Inductive Value :=
| VNone
| VBool (b : bool)
| VInt (n : Z)
| VFloat (ticks : Z)
| VStr (s : string).

Global Instance Value_eq_dec : EqDecision Value.
Proof. solve_decision. Defined.

(** An instance of [Exception] (what [except Exception] catches):
    its class name and the text [str(e)] returns. *)
Record Exn := mkExn { exn_class : string; exn_str : string }.

Definition str (e : Exn) : string := exn_str e.

(** The result of a call that may raise. *)
Inductive outcome (A : Type) :=
| Ret (a : A)
| Raise (e : Exn).
Arguments Ret {A} a.
Arguments Raise {A} e.

(** How a call of a log handler's [emit] ends: it returns, or the
    [ValueError] of [int] leaves it. *)
Inductive Completion := Returns | RaisesValueError.

(** [result.document] of the conversion library: the four exporters and
    [len(document.pages)] ([None] when the attribute is absent). *)
Record Document := mkDocument {
  export_to_markdown : outcome string;
  export_to_html : outcome string;
  export_to_json : outcome string;
  export_to_text : outcome string;
  pages : option nat
}.

(** [st.file_uploader] items: [name], [getvalue()], [size]. *)
Record UploadedFile := mkUploadedFile {
  name : string;
  getvalue : string;
  size : nat
}.

(** A temporary file on disk: the suffix of its name and its bytes. *)
Record TmpFile := mkTmpFile { tmp_suffix : string; tmp_bytes : string }.

(** The file system as far as the program touches it: the temporary files
    that exist, by path.  [NamedTemporaryFile] picks a path that does not
    exist yet. *)
Abbreviation FS := (gmap positive TmpFile).

Definition fresh_path (fs : gmap positive TmpFile) : positive := fresh (dom fs).

(** The text of a path, as stored in a result record. *)
Definition path_str (p : positive) (sfx : string) : string :=
  "/tmp/tmp" ++ pretty (Npos p) ++ sfx.

(** The external world: [DocumentConverter.convert] applied to a temporary
    file, and the successive readings of [time.time()]. *)
Record Env := mkEnv {
  convert : TmpFile -> outcome Document;
  time_at : nat -> Z
}.

(** One archive member written by [ZipFile.writestr]. *)
Record ZipEntry := mkZipEntry { ze_name : string; ze_data : string }.

(** The arguments of one [st.download_button] call. *)
Record DownloadButton := mkDownloadButton {
  db_label : string;
  db_data : string;
  db_file_name : string;
  db_mime : string;
  db_key : string
}.

(** [s.upper()] is only used in a label. *)
Definition upper_char (c : ascii) : ascii :=
  let n := nat_of_ascii c in
  if (97 <=? n)%nat && (n <=? 122)%nat then ascii_of_nat (n - 32) else c.

Fixpoint upper (s : string) : string :=
  match s with
  | EmptyString => EmptyString
  | String c s' => String (upper_char c) (upper s')
  end.

Definition nl : string := String (ascii_of_nat 10) EmptyString.

(** ** src/docling_ui.py *)

Module Basic.
Import PyStr.

(** *** LogCapture *)

(** Dictionaries are objects: [page_progress] holds a reference into a
    store of dictionaries with string keys and integer values. *)
Abbreviation Store := (gmap positive (gmap string Z)).

(** The handler's attributes: the queued log lines (oldest first) and the
    reference held in [self.page_progress]. *)
Record LogCapture := mkLogCapture {
  log_queue : list string;
  page_progress : positive
}.

Definition progress_dict (current total : Z) : gmap string Z :=
  <["current" := current]> (<["total" := total]> ∅).

(** Allocation of a new dictionary object. *)
Definition alloc (d : gmap string Z) (σ : gmap positive (gmap string Z))
  : positive * gmap positive (gmap string Z) :=
  let l := fresh (dom σ) in (l, <[l := d]> σ).

(** [LogCapture.__init__] *)
Definition init (σ : gmap positive (gmap string Z))
  : LogCapture * gmap positive (gmap string Z) :=
  let '(l, σ') := alloc (progress_dict 0 0) σ in (mkLogCapture [] l, σ').

(** [re.match] of [Finished converting pages (\d+)/(\d+)] at the start of
    [s]: the two groups.  [\d+] is greedy; giving digits back never helps,
    since what follows a shorter run of digits is a digit, not [/]. *)
Definition match_here (s : string) : option (string * string) :=
  match strip_prefix "Finished converting pages " s with
  | None => None
  | Some rest =>
      let '(d1, r1) := span_digits rest in
      if String.eqb d1 "" then None
      else match r1 with
           | String c r2 =>
               if Ascii.eqb c "/" then
                 let '(d2, _) := span_digits r2 in
                 if String.eqb d2 "" then None else Some (d1, d2)
               else None
           | EmptyString => None
           end
  end.

(** [re.search]: the match at the leftmost position that has one. *)
Fixpoint re_search (s : string) : option (string * string) :=
  match match_here s with
  | Some g => Some g
  | None =>
      match s with
      | EmptyString => None
      | String _ s' => re_search s'
      end
  end.

(** [LogCapture.emit], applied to the formatted record [log_entry]: how
    the call ends and the state it leaves.  The line is queued first; the
    dictionary is replaced only after both calls of [int] have returned. *)
Definition emit (log_entry : string) (h : LogCapture) (σ : gmap positive (gmap string Z))
  : Completion * (LogCapture * gmap positive (gmap string Z)) :=
  let h1 := mkLogCapture (log_queue h ++ [log_entry]) (page_progress h) in
  if contains "Finished converting pages" log_entry then
    match re_search log_entry with
    | Some (g1, g2) =>
        match py_int g1 with
        | None => (RaisesValueError, (h1, σ))
        | Some current =>
            match py_int g2 with
            | None => (RaisesValueError, (h1, σ))
            | Some total =>
                let '(l, σ') := alloc (progress_dict current total) σ in
                (Returns, (mkLogCapture (log_queue h1) l, σ'))
            end
        end
    | None => (Returns, (h1, σ))
    end
  else (Returns, (h1, σ)).

(** [LogCapture.get_logs]: drains the queue. *)
Definition get_logs (h : LogCapture) : list string * LogCapture :=
  (log_queue h, mkLogCapture [] (page_progress h)).

(** [LogCapture.get_page_progress]: [self.page_progress.copy()], a new
    dictionary object with the same items.  [None] stands for a dangling
    reference, which the program never produces. *)
Definition get_page_progress (h : LogCapture) (σ : gmap positive (gmap string Z))
  : option (positive * gmap positive (gmap string Z)) :=
  match σ !! page_progress h with
  | Some d => Some (alloc d σ)
  | None => None
  end.

(** *** get_file_format *)

(** [FormatToExtensions] of the conversion library is not part of this
    repository: it is a parameter, a dictionary from input formats (their
    string values) to lists of extensions, in iteration order. *)
Fixpoint lookup_format (FormatToExtensions : list (string * list string))
    (extension : string) : option string :=
  match FormatToExtensions with
  | [] => None
  | (format_type, extensions) :: rest =>
      if existsb (String.eqb extension) extensions then Some format_type
      else lookup_format rest extension
  end.

Definition get_file_format (FormatToExtensions : list (string * list string))
    (filename : string) : option string :=
  if String.eqb filename "" then None
  else
    let extension := last_item (split "." (lower filename)) in
    lookup_format FormatToExtensions extension.

(** [not file_format]: [None], or a member whose string value is empty. *)
Definition falsy_format (file_format : option string) : bool :=
  match file_format with
  | None => true
  | Some v => String.eqb v ""
  end.

(** *** convert_documents *)

Record State := mkState {
  fs : gmap positive TmpFile;
  results : list (gmap string Value);
  clock : nat
}.

Definition append_result (r : gmap string Value) (st : State) : State :=
  mkState (fs st) (results st ++ [r]) (clock st).

(** [time.time()] *)
Definition read_clock (env : Env) (st : State) : Z * State :=
  (time_at env (clock st), mkState (fs st) (results st) (S (clock st))).

Definition unsupported_record (filename : string) : gmap string Value :=
  <["filename" := VStr filename]>
  (<["status" := VStr "error"]>
  (<["message" := VStr "不支持的文件格式"]> ∅)).

Definition error_record (filename error_msg : string) (processing_time : Z)
  : gmap string Value :=
  <["filename" := VStr filename]>
  (<["status" := VStr "error"]>
  (<["message" := VStr error_msg]>
  (<["processing_time" := VFloat processing_time]> ∅))).

Definition success_record (filename content output_format : string)
    (npages : Z) (processing_time : Z) : gmap string Value :=
  <["filename" := VStr filename]>
  (<["status" := VStr "success"]>
  (<["content" := VStr content]>
  (<["format" := VStr output_format]>
  (<["pages" := VInt npages]>
  (<["processing_time" := VFloat processing_time]> ∅))))).

(** The [if/elif] chain on [output_format]. *)
Definition export (output_format : string) (doc : Document) : outcome string :=
  if String.eqb output_format "markdown" then export_to_markdown doc
  else if String.eqb output_format "html" then export_to_html doc
  else if String.eqb output_format "json" then export_to_json doc
  else if String.eqb output_format "text" then export_to_text doc
  else export_to_markdown doc.

(** The temporary file written for an upload: the suffix is
    [f".{uploaded_file.name.split('.')[-1]}"]. *)
Definition tmp_file_of (uploaded_file : UploadedFile) : TmpFile :=
  mkTmpFile ("." ++ last_item (split "." (name uploaded_file))) (getvalue uploaded_file).

(** The library calls of the [try] body, in order: [converter.convert],
    then the exporter; the first exception ends the body. *)
Definition attempt (env : Env) (output_format : string) (tmp_file : TmpFile)
  : outcome (Document * string) :=
  match convert env tmp_file with
  | Raise e => Raise e
  | Ret result =>
      match export output_format result with
      | Raise e => Raise e
      | Ret content => Ret (result, content)
      end
  end.

(** The [except Exception as e] branch of the loop body. *)
Definition on_exception (env : Env) (uploaded_file : UploadedFile)
    (file_start_time : Z) (e : Exn) (st : State) : State :=
  let '(file_end_time, st) := read_clock env st in
  let processing_time := (file_end_time - file_start_time)%Z in
  let error_msg := str e in
  append_result (error_record (name uploaded_file) error_msg processing_time) st.

(** One iteration of [for i, uploaded_file in enumerate(uploaded_files)]. *)
Definition convert_one (env : Env) (FormatToExtensions : list (string * list string))
    (output_format : string) (st : State) (uploaded_file : UploadedFile) : State :=
  let '(file_start_time, st) := read_clock env st in
  let file_format := get_file_format FormatToExtensions (name uploaded_file) in
  if falsy_format file_format then
    append_result (unsupported_record (name uploaded_file)) st
  else
    let tmp_file_path := fresh_path (fs st) in
    let tmp_file := tmp_file_of uploaded_file in
    let st := mkState (<[tmp_file_path := tmp_file]> (fs st)) (results st) (clock st) in
    match attempt env output_format tmp_file with
    | Raise e => on_exception env uploaded_file file_start_time e st
    | Ret (result, content) =>
        let '(file_end_time, st) := read_clock env st in
        let processing_time := (file_end_time - file_start_time)%Z in
        let npages := match pages result with Some n => Z.of_nat n | None => 1%Z end in
        let st :=
          append_result
            (success_record (name uploaded_file) content output_format npages processing_time)
            st in
        mkState (delete tmp_file_path (fs st)) (results st) (clock st)
    end.

(** The loop of [convert_documents], from the state it starts in.  The
    first clock reading is [start_time]. *)
Definition convert_loop (env : Env) (FormatToExtensions : list (string * list string))
    (output_format : string) (uploaded_files : list UploadedFile) (st : State) : State :=
  fold_left (convert_one env FormatToExtensions output_format) uploaded_files st.

Definition convert_documents (env : Env) (FormatToExtensions : list (string * list string))
    (fs0 : gmap positive TmpFile) (uploaded_files : list UploadedFile)
    (output_format : string) : State :=
  let '(_, st) := read_clock env (mkState fs0 [] 0) in
  convert_loop env FormatToExtensions output_format uploaded_files st.

End Basic.

(** *** display_results (src/docling_ui.py) *)

Module BasicDisplay.
Import PyStr.

(** [{'markdown': 'md', 'html': 'html', 'json': 'json', 'text': 'txt'}
     .get(format, 'txt')]; every value of the model is hashable. *)
Definition file_extension (format : Value) : string :=
  match format with
  | VStr s =>
      if String.eqb s "markdown" then "md"
      else if String.eqb s "html" then "html"
      else if String.eqb s "json" then "json"
      else if String.eqb s "text" then "txt"
      else "txt"
  | _ => "txt"
  end.

(** A value that must be a [str] for the method called on it;
    [None] stands for the exception raised otherwise. *)
Definition as_str (v : Value) : option string :=
  match v with
  | VStr s => Some s
  | _ => None
  end.

(** [f"{x:.1f}"] accepts numbers only. *)
Definition formats_as_float (v : Value) : bool :=
  match v with
  | VInt _ | VFloat _ | VBool _ => true
  | _ => false
  end.

(** [result['status'] == 'success']; [None] is the [KeyError]. *)
Definition is_success (result : gmap string Value) : option bool :=
  match result !! "status" with
  | Some v => Some (bool_decide (v = VStr "success"))
  | None => None
  end.

(** [sum(1 for r in results if r['status'] == 'success')] *)
Fixpoint count_success (results : list (gmap string Value)) : option nat :=
  match results with
  | [] => Some 0
  | r :: rest =>
      match is_success r, count_success rest with
      | Some b, Some n => Some (if b then S n else n)
      | _, _ => None
      end
  end.

(** [f"{result['filename'].rsplit('.', 1)[0]}.{file_extension}"] *)
Definition output_name (filename : string) (ext : string) : string :=
  first_item (rsplit1 "." filename) ++ "." ++ ext.

(** What one iteration of the result loop shows. *)
Inductive Shown :=
| ShownSuccess (button : DownloadButton)
| ShownFailure (message : Value).

(** The body of [for i, result in enumerate(results)];
    [None] stands for an exception, which leaves [display_results]. *)
Definition show_result (i : nat) (result : gmap string Value) : option Shown :=
  match result !! "filename", is_success result with
  | Some vfilename, Some true =>
      let processing_time := default (VInt 0) (result !! "processing_time") in
      match result !! "format", result !! "content" with
      | Some vformat, Some vcontent =>
          if formats_as_float processing_time then
            match as_str vcontent, as_str vfilename, as_str vformat with
            | Some content, Some filename, Some format =>
                let ext := file_extension vformat in
                let download_filename := output_name filename ext in
                Some (ShownSuccess
                        (mkDownloadButton
                           ("📥 下载 " ++ upper format ++ " 文件")
                           content
                           download_filename
                           ("text/" ++ ext)
                           ("download_" ++ pretty i)))
            | _, _, _ => None
            end
          else None
      | _, _ => None
      end
  | Some _, Some false =>
      let processing_time := default (VInt 0) (result !! "processing_time") in
      match result !! "message" with
      | Some m => if formats_as_float processing_time then Some (ShownFailure m) else None
      | None => None
      end
  | _, _ => None
  end.

Fixpoint show_results (i : nat) (results : list (gmap string Value)) : option (list Shown) :=
  match results with
  | [] => Some []
  | r :: rest =>
      match show_result i r with
      | Some s =>
          match show_results (S i) rest with
          | Some l => Some (s :: l)
          | None => None
          end
      | None => None
      end
  end.

(** The body of [with zipfile.ZipFile(...) as zip_file]: the members
    written, in order; [None] stands for an exception, caught by the
    enclosing [try]. *)
Fixpoint zip_members (results : list (gmap string Value)) : option (list ZipEntry) :=
  match results with
  | [] => Some []
  | result :: rest =>
      match is_success result with
      | Some true =>
          match result !! "format", result !! "filename", result !! "content" with
          | Some vformat, Some vfilename, Some vcontent =>
              match as_str vfilename, as_str vcontent, zip_members rest with
              | Some filename, Some content, Some l =>
                  Some (mkZipEntry (output_name filename (file_extension vformat)) content :: l)
              | _, _, _ => None
              end
          | _, _, _ => None
          end
      | Some false => zip_members rest
      | None => None
      end
  end.

(** What [display_results] puts on the page: the per-file items and the
    members of the archive behind the batch download button, if that
    button is shown. *)
Record Page := mkPage {
  shown : list Shown;
  batch_download : option (list ZipEntry)
}.

Definition display_results (results : list (gmap string Value)) : option Page :=
  match count_success results with
  | Some success_count =>
      match show_results 0 results with
      | Some items =>
          Some (mkPage items
                  (if (1 <? success_count)%nat then zip_members results else None))
      | None => None
      end
  | None => None
  end.

End BasicDisplay.

(** ** src/docling-enhanced/docling_ui.py *)

Module Enhanced.
Import PyStr.

(** *** LogCapture *)

(** The handler's two attributes are references to a list of log lines and
    to a dictionary from page numbers to log lines. *)
Inductive Obj :=
| OList (l : list string)
| ODict (d : gmap Z string).

Abbreviation Store := (gmap positive Obj).

Record LogCapture := mkLogCapture {
  logs : positive;
  page_progress : positive
}.

Definition alloc (o : Obj) (σ : gmap positive Obj) : positive * gmap positive Obj :=
  let l := fresh (dom σ) in (l, <[l := o]> σ).

(** [LogCapture.__init__] *)
Definition init (σ : gmap positive Obj) : LogCapture * gmap positive Obj :=
  let '(l1, σ1) := alloc (OList []) σ in
  let '(l2, σ2) := alloc (ODict ∅) σ1 in
  (mkLogCapture l1 l2, σ2).

(** [re.match] of [page\s*(\d+)] at the start of [s]: the group.  Both
    repetitions are greedy and giving characters back never helps. *)
Definition match_here (s : string) : option string :=
  match strip_prefix "page" s with
  | None => None
  | Some rest =>
      let '(d, _) := span_digits (skip_spaces rest) in
      if String.eqb d "" then None else Some d
  end.

(** [re.search] *)
Fixpoint re_search (s : string) : option string :=
  match match_here s with
  | Some g => Some g
  | None =>
      match s with
      | EmptyString => None
      | String _ s' => re_search s'
      end
  end.

(** ["page" in low and any(word in low for word in
     ["processing", "converting", "extracting"])] *)
Definition mentions_page_work (low : string) : bool :=
  contains "page" low &&
  existsb (fun word => contains word low) ["processing"; "converting"; "extracting"].

(** [LogCapture.emit], applied to the formatted record [log_entry]: how
    the call ends and the store it leaves; both objects are updated in
    place, the list first.  [None] stands for a dangling or ill-typed
    reference, which the program never produces. *)
Definition emit (log_entry : string) (h : LogCapture) (σ : gmap positive Obj)
  : option (Completion * gmap positive Obj) :=
  match σ !! logs h with
  | Some (OList l) =>
      let σ1 := <[logs h := OList (l ++ [log_entry])]> σ in
      if mentions_page_work (lower log_entry) then
        match re_search (lower log_entry) with
        | Some g =>
            match py_int g with
            | None => Some (RaisesValueError, σ1)
            | Some page_num =>
                match σ1 !! page_progress h with
                | Some (ODict d) =>
                    Some (Returns,
                          <[page_progress h := ODict (<[page_num := log_entry]> d)]> σ1)
                | _ => None
                end
            end
        | None => Some (Returns, σ1)
        end
      else Some (Returns, σ1)
  | _ => None
  end.

(** [LogCapture.get_logs]: [self.logs.copy()] *)
Definition get_logs (h : LogCapture) (σ : gmap positive Obj)
  : option (positive * gmap positive Obj) :=
  match σ !! logs h with
  | Some (OList l) => Some (alloc (OList l) σ)
  | _ => None
  end.

(** [LogCapture.get_page_progress]: [self.page_progress.copy()] *)
Definition get_page_progress (h : LogCapture) (σ : gmap positive Obj)
  : option (positive * gmap positive Obj) :=
  match σ !! page_progress h with
  | Some (ODict d) => Some (alloc (ODict d) σ)
  | _ => None
  end.

(** [LogCapture.clear_logs] *)
Definition clear_logs (h : LogCapture) (σ : gmap positive Obj) : gmap positive Obj :=
  <[page_progress h := ODict ∅]> (<[logs h := OList []]> σ).

(** *** get_mime_type and get_file_format *)

Definition mime_types : gmap string string :=
  <["markdown" := "text/markdown"]>
  (<["html" := "text/html"]>
  (<["json" := "application/json"]>
  (<["text" := "text/plain"]> ∅))).

Definition get_mime_type (format_type : string) : string :=
  default "text/plain" (mime_types !! format_type).

Definition format_mapping : gmap string string :=
  list_to_map
    [(".pdf", "PDF"); (".docx", "DOCX"); (".pptx", "PPTX"); (".html", "HTML");
     (".htm", "HTML"); (".png", "Image"); (".jpg", "Image"); (".jpeg", "Image");
     (".tiff", "Image"); (".bmp", "Image"); (".adoc", "AsciiDoc"); (".md", "Markdown")].

Definition get_file_format (filename : string) : option string :=
  let ext := lower (PyPath.suffix filename) in
  format_mapping !! ext.

(** *** convert_files: the conversion loop *)

Record State := mkState {
  fs : gmap positive TmpFile;
  conversion_results : list (gmap string Value);
  success_count : nat;
  clock : nat
}.

Definition read_clock (env : Env) (st : State) : Z * State :=
  (time_at env (clock st),
   mkState (fs st) (conversion_results st) (success_count st) (S (clock st))).

Definition append_result (r : gmap string Value) (st : State) : State :=
  mkState (fs st) (conversion_results st ++ [r]) (success_count st) (clock st).

Definition success_record (filename content extension : string)
    (processing_time : Z) (npages : Value) : gmap string Value :=
  <["filename" := VStr filename]>
  (<["success" := VBool true]>
  (<["content" := VStr content]>
  (<["extension" := VStr extension]>
  (<["processing_time" := VFloat processing_time]>
  (<["pages" := npages]> ∅))))).

Definition error_record (filename error_msg : string) (processing_time : Z)
    (tmp_file_path : string) : gmap string Value :=
  <["filename" := VStr filename]>
  (<["success" := VBool false]>
  (<["error" := VStr error_msg]>
  (<["processing_time" := VFloat processing_time]>
  (<["tmp_file_path" := VStr tmp_file_path]> ∅)))).

(** The [if/elif] chain on [output_format]: the exporter and the extension. *)
Definition export (output_format : string) (doc : Document) : outcome string * string :=
  if String.eqb output_format "Markdown" then (export_to_markdown doc, "md")
  else if String.eqb output_format "HTML" then (export_to_html doc, "html")
  else if String.eqb output_format "JSON" then (export_to_json doc, "json")
  else (export_to_text doc, "txt").

(** The message stored for a caught exception. *)
Definition describe_error (error_msg : string) : string :=
  if contains "No such file or directory" error_msg then
    "文件访问错误: " ++ error_msg ++ nl ++ "可能原因:" ++ nl
    ++ "- 临时文件创建失败" ++ nl ++ "- 文件路径包含特殊字符" ++ nl ++ "- 磁盘空间不足"
  else error_msg.

(** The temporary file written for an upload: the suffix is
    [Path(uploaded_file.name).suffix]. *)
Definition tmp_file_of (uploaded_file : UploadedFile) : TmpFile :=
  mkTmpFile (PyPath.suffix (name uploaded_file)) (getvalue uploaded_file).

(** The library calls of the [try] body, in order: [converter.convert],
    then the exporter; the first exception ends the body. *)
Definition attempt (env : Env) (output_format : string) (tmp_file : TmpFile)
  : outcome (Document * string * string) :=
  match convert env tmp_file with
  | Raise e => Raise e
  | Ret result =>
      match export output_format result with
      | (Raise e, _) => Raise e
      | (Ret content, extension) => Ret (result, content, extension)
      end
  end.

(** [if tmp_file_path and os.path.exists(tmp_file_path): os.unlink(...)] *)
Definition cleanup (tmp_file_path : option positive) (st : State) : State :=
  match tmp_file_path with
  | Some p =>
      match fs st !! p with
      | Some _ => mkState (delete p (fs st)) (conversion_results st) (success_count st) (clock st)
      | None => st
      end
  | None => st
  end.

(** The [except Exception as e] branch of the loop body. *)
Definition on_exception (env : Env) (uploaded_file : UploadedFile) (start_time : Z)
    (tmp_file_path : option positive) (sfx : string) (e : Exn) (st : State) : State :=
  let '(now, st) := read_clock env st in
  let processing_time := (now - start_time)%Z in
  let error_msg := describe_error (str e) in
  let shown_path :=
    match tmp_file_path with
    | Some p => path_str p sfx
    | None => "未创建"
    end in
  let st := append_result (error_record (name uploaded_file) error_msg processing_time shown_path) st in
  cleanup tmp_file_path st.

(** One iteration of [for i, uploaded_file in enumerate(uploaded_files)]. *)
Definition convert_one (env : Env) (output_format : string) (st : State)
    (uploaded_file : UploadedFile) : State :=
  let '(start_time, st) := read_clock env st in
  let sfx := PyPath.suffix (name uploaded_file) in
  let p := fresh_path (fs st) in
  let st := mkState (<[p := tmp_file_of uploaded_file]> (fs st))
                    (conversion_results st) (success_count st) (clock st) in
  let tmp_file_path := Some p in
  match fs st !! p with
  | None =>
      on_exception env uploaded_file start_time tmp_file_path sfx
        (mkExn "FileNotFoundError" ("临时文件创建失败: " ++ path_str p sfx)) st
  | Some tmp_file =>
      match attempt env output_format tmp_file with
      | Raise e => on_exception env uploaded_file start_time tmp_file_path sfx e st
      | Ret (result, content, extension) =>
          let '(now, st) := read_clock env st in
          let processing_time := (now - start_time)%Z in
          let npages :=
            match pages result with
            | Some n => VInt (Z.of_nat n)
            | None => VStr "N/A"
            end in
          let st :=
            append_result
              (success_record (name uploaded_file) content extension processing_time npages)
              st in
          let st := mkState (fs st) (conversion_results st) (S (success_count st)) (clock st) in
          cleanup tmp_file_path st
      end
  end.

Definition convert_loop (env : Env) (output_format : string)
    (uploaded_files : list UploadedFile) (st : State) : State :=
  fold_left (convert_one env output_format) uploaded_files st.

End Enhanced.

(** *** convert_files: packaging and display (src/docling-enhanced) *)

Module EnhancedDisplay.
Import PyStr Enhanced.

(** Truth value of a stored value, as tested by [if result['success']]. *)
Definition truthy (v : Value) : bool :=
  match v with
  | VNone => false
  | VBool b => b
  | VInt n => negb (n =? 0)%Z
  | VFloat t => negb (t =? 0)%Z
  | VStr s => negb (String.eqb s "")
  end.

Definition as_str (v : Value) : option string :=
  match v with
  | VStr s => Some s
  | _ => None
  end.

(** [f"{Path(result['filename']).stem}.{result['extension']}"] *)
Definition output_name (filename extension : string) : string :=
  PyPath.stem filename ++ "." ++ extension.

(** The records this code reads are the ones the loop above has appended:
    [filename], [content] and [extension] are strings there.  [None]
    stands for the exception a missing key or another type would raise. *)
Definition entry_fields (result : gmap string Value) : option (string * string * string) :=
  match result !! "filename", result !! "extension", result !! "content" with
  | Some vf, Some ve, Some vc =>
      match as_str vf, as_str ve, as_str vc with
      | Some filename, Some extension, Some content => Some (filename, extension, content)
      | _, _, _ => None
      end
  | _, _, _ => None
  end.

(** The body of [with zipfile.ZipFile(...) as zip_file]: the members
    written, in order. *)
Fixpoint zip_members (conversion_results : list (gmap string Value)) : option (list ZipEntry) :=
  match conversion_results with
  | [] => Some []
  | result :: rest =>
      match result !! "success" with
      | Some v =>
          if truthy v then
            match entry_fields result, zip_members rest with
            | Some (filename, extension, content), Some l =>
                Some (mkZipEntry (output_name filename extension) content :: l)
            | _, _ => None
            end
          else zip_members rest
      | None => None
      end
  end.

Inductive Shown :=
| ShownSuccess (button : DownloadButton)
| ShownFailure (message : Value).

(** The body of [for i, result in enumerate(conversion_results)]. *)
Definition show_result (output_format : string) (conversion_timestamp : Z)
    (i : nat) (result : gmap string Value) : option Shown :=
  match result !! "success" with
  | Some v =>
      if truthy v then
        match entry_fields result with
        | Some (filename, extension, content) =>
            Some (ShownSuccess
                    (mkDownloadButton
                       ("📥 下载 " ++ output_format ++ " 文件")
                       content
                       (output_name filename extension)
                       (get_mime_type (lower output_format))
                       ("download_" ++ pretty i ++ "_" ++ pretty conversion_timestamp)))
        | None => None
        end
      else
        match result !! "error" with
        | Some m => Some (ShownFailure m)
        | None => None
        end
  | None => None
  end.

Fixpoint show_results (output_format : string) (conversion_timestamp : Z)
    (i : nat) (conversion_results : list (gmap string Value)) : option (list Shown) :=
  match conversion_results with
  | [] => Some []
  | r :: rest =>
      match show_result output_format conversion_timestamp i r,
            show_results output_format conversion_timestamp (S i) rest with
      | Some s, Some l => Some (s :: l)
      | _, _ => None
      end
  end.

(** What [convert_files] leaves behind: the state after the loop, the
    members of the archive behind the batch download button if that button
    is shown, and the per-file items. *)
Record Output := mkOutput {
  final : State;
  batch_download : option (list ZipEntry);
  shown : list Shown
}.

(** [convert_files]; [None] when it returns at once ([not uploaded_files])
    or when an exception leaves it. *)
Definition convert_files (env : Env) (fs0 : gmap positive TmpFile)
    (conversion_timestamp : Z) (uploaded_files : list UploadedFile)
    (output_format : string) : option Output :=
  match uploaded_files with
  | [] => None
  | _ :: _ =>
      let st := convert_loop env output_format uploaded_files (mkState fs0 [] 0 0) in
      let batch :=
        if (1 <? success_count st)%nat
        then match zip_members (conversion_results st) with
             | Some z => Some (Some z)
             | None => None
             end
        else Some None in
      match batch, show_results output_format conversion_timestamp 0 (conversion_results st) with
      | Some b, Some items => Some (mkOutput st b items)
      | _, _ => None
      end
  end.

End EnhancedDisplay.

(** ** Vocabulary of the statements about the loops *)

Module LoopSpec.

(** In src/docling_ui.py the conversion of [f] raises [e]: its format is
    supported and one of the library calls of the [try] body raises [e]. *)
Definition basic_raises (env : Env) (tbl : list (string * list string)) (fmt : string)
    (f : UploadedFile) (e : Exn) : Prop :=
  Basic.falsy_format (Basic.get_file_format tbl (name f)) = false /\
  Basic.attempt env fmt (Basic.tmp_file_of f) = Raise e.

(** What the loop of src/docling_ui.py records for the file [f]. *)
Definition basic_recorded (env : Env) (tbl : list (string * list string)) (fmt : string)
    (f : UploadedFile) (r : gmap string Value) : Prop :=
  r !! "filename" = Some (VStr (name f)) /\
  (forall e, basic_raises env tbl fmt f e ->
     r !! "status" = Some (VStr "error") /\ r !! "message" = Some (VStr (str e))).

(** In the enhanced program the conversion of [f] raises [e]. *)
Definition enhanced_raises (env : Env) (fmt : string) (f : UploadedFile) (e : Exn) : Prop :=
  Enhanced.attempt env fmt (Enhanced.tmp_file_of f) = Raise e.

(** What the loop of the enhanced program records for the file [f]. *)
Definition enhanced_recorded (env : Env) (fmt : string)
    (f : UploadedFile) (r : gmap string Value) : Prop :=
  r !! "filename" = Some (VStr (name f)) /\
  (forall e, enhanced_raises env fmt f e ->
     r !! "success" = Some (VBool false) /\
     r !! "error" = Some (VStr (Enhanced.describe_error (str e)))).

(** A record of src/docling_ui.py is a success record with content and no
    message, or an error record with a message and no content. *)
Definition basic_exclusive (r : gmap string Value) : Prop :=
  (r !! "status" = Some (VStr "success") /\
   (exists c, r !! "content" = Some (VStr c)) /\ r !! "message" = None)
  \/
  (r !! "status" = Some (VStr "error") /\
   (exists m, r !! "message" = Some (VStr m)) /\ r !! "content" = None).

(** The same for the records of the enhanced program, whose keys are
    [success] and [error]. *)
Definition enhanced_exclusive (r : gmap string Value) : Prop :=
  (r !! "success" = Some (VBool true) /\
   (exists c, r !! "content" = Some (VStr c)) /\ r !! "error" = None)
  \/
  (r !! "success" = Some (VBool false) /\
   (exists m, r !! "error" = Some (VStr m)) /\ r !! "content" = None).

(** The text the enhanced program stores for a caught exception whose
    message mentions a missing file. *)
Definition wrapped (msg : string) : string :=
  "文件访问错误: " ++ msg ++ nl ++ "可能原因:" ++ nl
  ++ "- 临时文件创建失败" ++ nl ++ "- 文件路径包含特殊字符" ++ nl ++ "- 磁盘空间不足".

(** The three kinds of record the loop of src/docling_ui.py builds, for
    the output format [fmt]. *)
Definition basic_shape (fmt : string) (r : gmap string Value) : Prop :=
  (exists filename content npages t, r = Basic.success_record filename content fmt npages t) \/
  (exists filename msg t, r = Basic.error_record filename msg t) \/
  (exists filename, r = Basic.unsupported_record filename).

(** The extension the enhanced program derives from the output format. *)
Definition extension_of (fmt : string) : string :=
  if String.eqb fmt "Markdown" then "md"
  else if String.eqb fmt "HTML" then "html"
  else if String.eqb fmt "JSON" then "json"
  else "txt".

(** The two kinds of record the loop of the enhanced program builds. *)
Definition enhanced_shape (fmt : string) (r : gmap string Value) : Prop :=
  (exists filename content t pg,
     r = Enhanced.success_record filename content (extension_of fmt) t pg) \/
  (exists filename msg t path, r = Enhanced.error_record filename msg t path).

(** [result['status'] == 'success'], as a filter on result lists. *)
Definition basic_succeeded (r : gmap string Value) : bool :=
  bool_decide (r !! "status" = Some (VStr "success")).

(** [result['success']] is true, as a filter on result lists. *)
Definition enhanced_succeeded (r : gmap string Value) : bool :=
  bool_decide (r !! "success" = Some (VBool true)).

(** The archive member that belongs to a success record of
    src/docling_ui.py: named after the text before the last dot of the
    file name, with the extension of the record's format; its data is the
    record's content. *)
Definition basic_member_of (r : gmap string Value) (m : ZipEntry) : Prop :=
  exists filename content vformat,
    r !! "filename" = Some (VStr filename) /\
    r !! "content" = Some (VStr content) /\
    r !! "format" = Some vformat /\
    ze_name m = PyStr.first_item (PyStr.rsplit1 "." filename) ++ "."
                ++ BasicDisplay.file_extension vformat /\
    ze_data m = content.

(** The same for the enhanced program: the name is the [Path.stem] of the
    file name with the record's extension. *)
Definition enhanced_member_of (r : gmap string Value) (m : ZipEntry) : Prop :=
  exists filename content extension,
    r !! "filename" = Some (VStr filename) /\
    r !! "content" = Some (VStr content) /\
    r !! "extension" = Some (VStr extension) /\
    ze_name m = PyPath.stem filename ++ "." ++ extension /\
    ze_data m = content.

(** What src/docling_ui.py shows for a record: for a success record, a
    download button whose data is the record's content and whose file name
    is the text before the last dot of the original name, a dot, and the
    extension of the output format. *)
Definition basic_shown_for (fmt : string) (r : gmap string Value)
    (s : BasicDisplay.Shown) : Prop :=
  if basic_succeeded r then
    exists b filename content,
      s = BasicDisplay.ShownSuccess b /\
      r !! "filename" = Some (VStr filename) /\
      r !! "content" = Some (VStr content) /\
      db_data b = content /\
      db_file_name b = PyStr.first_item (PyStr.rsplit1 "." filename) ++ "."
                       ++ BasicDisplay.file_extension (VStr fmt)
  else exists m, s = BasicDisplay.ShownFailure m.

(** What the enhanced program shows for a record. *)
Definition enhanced_shown_for (fmt : string) (r : gmap string Value)
    (s : EnhancedDisplay.Shown) : Prop :=
  if enhanced_succeeded r then
    exists b filename content,
      s = EnhancedDisplay.ShownSuccess b /\
      r !! "filename" = Some (VStr filename) /\
      r !! "content" = Some (VStr content) /\
      db_data b = content /\
      db_file_name b = PyPath.stem filename ++ "." ++ extension_of fmt
  else exists m, s = EnhancedDisplay.ShownFailure m.

End LoopSpec.

(** ** Concrete inputs used in the examples *)

Module Fixtures.

Definition doc_ok : Document :=
  mkDocument (Ret "# Title") (Ret "<h1>Title</h1>") (Ret "{}") (Ret "Title") (Some 2).

Definition boom : Exn := mkExn "RuntimeError" "boom".

Definition enoent : Exn :=
  mkExn "FileNotFoundError" "[Errno 2] No such file or directory: 'model.bin'".

(** A library that fails on uploads whose bytes are ["bad"] and converts
    every other file; the clock advances by one tick per reading. *)
Definition env_mixed : Env :=
  mkEnv (fun tmp => if String.eqb (tmp_bytes tmp) "bad" then Raise boom else Ret doc_ok)
        (fun n => Z.of_nat n).

(** A library whose every conversion fails on a missing file. *)
Definition env_enoent : Env :=
  mkEnv (fun _ => Raise enoent) (fun n => Z.of_nat n).

(** An excerpt of the library's [FormatToExtensions]. *)
Definition formats : list (string * list string) :=
  [("docx", ["docx"; "dotx"; "docm"; "dotm"]);
   ("pdf", ["pdf"]);
   ("md", ["md"]);
   ("html", ["html"; "htm"; "xhtml"])].


Definition good_pdf : UploadedFile := mkUploadedFile "a.pdf" "%PDF" 4.
Definition bad_pdf : UploadedFile := mkUploadedFile "b.pdf" "bad" 3.
Definition good_md : UploadedFile := mkUploadedFile "notes.md" "# n" 3.
Definition exe : UploadedFile := mkUploadedFile "tool.exe" "MZ" 2.

Definition batch : list UploadedFile := [good_pdf; bad_pdf; good_md].

End Fixtures.


(** ** Vocabulary of the statements about the log handler *)

Module HandlerSpec.

(** [get] returns a copy of [value]: a reference to an object equal to
    [value]; however the caller then mutates that object, the objects the
    handler holds (at the references [internal]) stay as they were, and
    the next call returns an object equal to [value] again. *)
Definition returns_copy {O : Type} (σ : gmap positive O) (internal : list positive)
    (get : gmap positive O -> option (positive * gmap positive O)) (value : O) : Prop :=
  exists l σ',
    get σ = Some (l, σ') /\
    σ' !! l = Some value /\
    forall o' : O,
      (forall k, k ∈ internal -> (<[l := o']> σ') !! k = σ !! k) /\
      exists l2 σ2, get (<[l := o']> σ') = Some (l2, σ2) /\ σ2 !! l2 = Some value.

Definition all_digits (s : string) : bool :=
  forallb PyStr.is_digit (list_ascii_of_string s).

Definition starts_with_digit (s : string) : bool :=
  match s with
  | String c _ => PyStr.is_digit c
  | EmptyString => false
  end.

(** The text [Finished converting pages X/Y] stands at the start of [s],
    [X] and [Y] being the whole runs of digits found there. *)
Definition progress_at (s x y : string) : Prop :=
  exists post,
    s = "Finished converting pages " ++ x ++ "/" ++ y ++ post /\
    x <> "" /\ y <> "" /\
    all_digits x = true /\ all_digits y = true /\
    starts_with_digit post = false.

(** The first place of [line] where such a text stands has [X] and [Y]. *)
Definition first_progress (line x y : string) : Prop :=
  exists pre rest,
    line = pre ++ rest /\
    progress_at rest x y /\
    forall pre' rest' x' y',
      line = pre' ++ rest' -> String.length pre' < String.length pre ->
      ~ progress_at rest' x' y'.

(** The pattern occurs somewhere in [line]. *)
Definition progress_occurs (line : string) : Prop :=
  exists pre x y post,
    line = pre ++ "Finished converting pages " ++ x ++ "/" ++ y ++ post /\
    x <> "" /\ y <> "" /\ all_digits x = true /\ all_digits y = true.

Definition all_spaces (s : string) : bool :=
  forallb PyStr.is_space (list_ascii_of_string s).

(** The text [page], white space (possibly none) and a number stand at
    the start of [s], [n] being the whole run of digits found there: the
    match of [page\s*(\d+)] at the start of [s]. *)
Definition page_at (s n : string) : Prop :=
  exists ws post,
    s = "page" ++ ws ++ n ++ post /\
    all_spaces ws = true /\ n <> "" /\ all_digits n = true /\
    starts_with_digit post = false.


(** [page], white space and a digit occur somewhere in [low]. *)
Definition page_occurs (low : string) : Prop :=
  exists pre ws n post,
    low = pre ++ "page" ++ ws ++ n ++ post /\
    all_spaces ws = true /\ n <> "" /\ all_digits n = true.

(** The digit run is within the limit of [int]. *)
Definition within_limit (ds : string) : Prop :=
  String.length ds <= PyStr.max_str_digits.

(** A handler of src/docling_ui.py with an empty queue and the dictionary
    it starts with. *)
Definition basic_handler : Basic.LogCapture * gmap positive (gmap string Z) :=
  Basic.init ∅.

(** A handler of the enhanced program as [__init__] leaves it. *)
Definition enhanced_handler : Enhanced.LogCapture * gmap positive Enhanced.Obj :=
  Enhanced.init ∅.

End HandlerSpec.

(** ** Vocabulary of the statements about file names *)

Module NameSpec.

(** The character [c] occurs in [s]. *)
Fixpoint has_char (c : ascii) (s : string) : bool :=
  match s with
  | EmptyString => false
  | String a s' => Ascii.eqb a c || has_char c s'
  end.


End NameSpec.

(** ** More of the two programs: logging set-up, previews, metrics *)

Module More.
Import PyStr.

(** *** Logging *)

(** A logger of the [logging] module as far as the programs touch it: its
    level and its handlers, in order.  Handlers are compared by identity;
    [log_capture] is the module-level handler of each program. *)
Inductive Level := DEBUG | INFO | WARNING | NOTSET.

Record Logger := mkLogger {
  level : Level;
  handlers : list positive
}.

(** [Logger.addHandler]: appends, unless the handler is there already. *)
Definition addHandler (h : positive) (lg : Logger) : Logger :=
  if bool_decide (h ∈ handlers lg) then lg
  else mkLogger (level lg) (handlers lg ++ [h]).

(** [list.remove]: the first occurrence goes; here nothing happens when
    there is none, as [removeHandler] tests [hdlr in self.handlers] first. *)
Fixpoint remove_first (h : positive) (l : list positive) : list positive :=
  match l with
  | [] => []
  | x :: l' => if bool_decide (x = h) then l' else x :: remove_first h l'
  end.

(** [Logger.removeHandler] *)
Definition removeHandler (h : positive) (lg : Logger) : Logger :=
  mkLogger (level lg) (remove_first h (handlers lg)).

Definition setLevel (l : Level) (lg : Logger) : Logger := mkLogger l (handlers lg).

(** [setup_logging] of src/docling_ui.py, on the logger named [docling]. *)
Definition basic_setup_logging (log_capture : positive) (docling_logger : Logger) : Logger :=
  let docling_logger := setLevel DEBUG docling_logger in
  if bool_decide (log_capture ∈ handlers docling_logger) then docling_logger
  else addHandler log_capture docling_logger.

(** [setup_logging] of the enhanced program, on the root logger and the
    logger named [docling]: the loop runs over a copy of the handler list. *)
Definition enhanced_setup_logging (log_capture : positive) (root docling_logger : Logger)
  : Logger * Logger :=
  let root := fold_left (fun lg h => removeHandler h lg) (handlers root) root in
  let root := addHandler log_capture root in
  let root := setLevel INFO root in
  (root, setLevel INFO docling_logger).

(** *** Sequences of log records *)

(** The handler of src/docling_ui.py receiving the formatted records
    [lines], one after the other, each in a logging call of its own: a
    call that raises leaves the handler in the state it had reached, and
    the next record finds it there. *)
Definition basic_emit_all (lines : list string)
    (hσ : Basic.LogCapture * gmap positive (gmap string Z))
  : Basic.LogCapture * gmap positive (gmap string Z) :=
  fold_left (fun acc line => snd (Basic.emit line (fst acc) (snd acc))) lines hσ.

(** The same for the handler of the enhanced program, whose attributes
    never change. *)
Definition enhanced_emit_all (lines : list string) (h : Enhanced.LogCapture)
    (σ : gmap positive Enhanced.Obj) : option (gmap positive Enhanced.Obj) :=
  fold_left (fun acc line => match acc with
                             | Some σ' => snd <$> Enhanced.emit line h σ'
                             | None => None
                             end) lines (Some σ).

(** [logs[-5:] if len(logs) > 5 else logs] of the enhanced program. *)
Definition recent_logs (logs : list string) : list string :=
  if (5 <? length logs)%nat then List.skipn (length logs - 5) logs else logs.

(** ["\n".join([f"• {log}" for log in recent_logs])] *)
Fixpoint join (sep : string) (l : list string) : string :=
  match l with
  | [] => ""
  | [x] => x
  | x :: rest => x ++ sep ++ join sep rest
  end.

Definition log_text (recent : list string) : string :=
  join nl (map (fun log => "• " ++ log) recent).

(** *** Previews and metrics *)

(** [content[:1000] + "..." if len(content) > 1000 else content], the same
    expression in both programs, on a text of ASCII characters (where
    [len] and the slice count bytes). *)
Definition preview_content (content : string) : string :=
  if (1000 <? String.length content)%nat then PyStr.take 1000 content ++ "..."
  else content.

(** A text of 1200 characters, all of them the letter a. *)
Definition long_text : string := string_of_list_ascii (repeat "a"%char 1200).

(** The three metrics of [display_results]: [len(results)],
    [success_count] and [error_count = len(results) - success_count];
    [None] stands for the [KeyError] of a record without [status]. *)
Definition metrics (results : list (gmap string Value)) : option (Z * Z * Z) :=
  match BasicDisplay.count_success results with
  | Some success_count =>
      let total := Z.of_nat (length results) in
      Some (total, Z.of_nat success_count, (total - Z.of_nat success_count)%Z)
  | None => None
  end.

(** *** The upload table of [main] in src/docling_ui.py *)


(** *** The uploader of [main] in the enhanced program *)

(** The [type=[...]] argument of [st.file_uploader]. *)
Definition accepted_types : list string :=
  ["pdf"; "docx"; "pptx"; "html"; "htm"; "png"; "jpg"; "jpeg"; "tiff"; "bmp"; "adoc"; "md"].

(** *** Outcomes of a conversion, as a test *)

(** The conversion of [f] is attempted and raises, in src/docling_ui.py. *)
Definition basic_raising (env : Env) (tbl : list (string * list string)) (fmt : string)
    (f : UploadedFile) : bool :=
  negb (Basic.falsy_format (Basic.get_file_format tbl (name f))) &&
  match Basic.attempt env fmt (Basic.tmp_file_of f) with
  | Raise _ => true
  | Ret _ => false
  end.

(** The clock never runs backwards. *)
Definition monotone_clock (env : Env) : Prop :=
  forall n, (time_at env n <= time_at env (S n))%Z.

(** Every duration stored in the record is non-negative. *)
Definition nonneg_duration (r : gmap string Value) : Prop :=
  forall t, r !! "processing_time" = Some (VFloat t) -> (0 <= t)%Z.

End More.

(** ** Vocabulary of the further statements about the log handlers *)

Module HandlerMore.

(** The handler of the enhanced program in a store: its two attributes
    are distinct objects, a list holding [ls] and a dictionary holding [d]. *)
Definition enhanced_holds (h : Enhanced.LogCapture) (σ : gmap positive Enhanced.Obj)
    (ls : list string) (d : gmap Z string) : Prop :=
  Enhanced.logs h <> Enhanced.page_progress h /\
  σ !! Enhanced.logs h = Some (Enhanced.OList ls) /\
  σ !! Enhanced.page_progress h = Some (Enhanced.ODict d).

(** Every line stored in the page dictionary is one of the logged lines. *)
Definition values_logged (d : gmap Z string) (ls : list string) : Prop :=
  forall n v, d !! n = Some v -> v ∈ ls.

(** A handler of the enhanced program that has logged one line about
    page 3, with the store that holds its two objects. *)
Definition logged_handler : Enhanced.LogCapture * gmap positive Enhanced.Obj :=
  (Enhanced.mkLogCapture 1 2,
   <[2%positive := Enhanced.ODict {[ 3%Z := "Processing page 3" ]}]>
     (<[1%positive := Enhanced.OList ["Processing page 3"]]> ∅)).

(** The page-progress dictionary of the handler of src/docling_ui.py has
    both keys, with values that are not negative. *)
Definition progress_ok (hσ : Basic.LogCapture * gmap positive (gmap string Z)) : Prop :=
  exists d c t,
    snd hσ !! Basic.page_progress (fst hσ) = Some d /\
    d !! "current" = Some c /\ d !! "total" = Some t /\ (0 <= c)%Z /\ (0 <= t)%Z.

End HandlerMore.

(** ** Vocabulary of the statements about the upload table *)

Module TableSpec.


End TableSpec.

(** * Properties *)

Local Open Scope list_scope.

Module StrExamples.
Import PyStr PyPath.

Example lower_ex : lower "Report.PDF" = "report.pdf".
Proof. reflexivity. Qed.

Example split_ex : split "." "a.tar.gz" = ["a"; "tar"; "gz"].
Proof. reflexivity. Qed.

Example split_nodot_ex : split "." "pdf" = ["pdf"].
Proof. reflexivity. Qed.

Example rsplit1_ex : rsplit1 "." "a.tar.gz" = ["a.tar"; "gz"].
Proof. reflexivity. Qed.

Example rsplit1_dotfile_ex : rsplit1 "." ".pdf" = [""; "pdf"].
Proof. reflexivity. Qed.

Example suffix_ex : suffix "dir/Report.PDF" = ".PDF".
Proof. reflexivity. Qed.

Example suffix_dotfile_ex : suffix ".pdf" = "".
Proof. reflexivity. Qed.

Example stem_ex : stem "dir/a.tar.gz" = "a.tar".
Proof. reflexivity. Qed.

Example stem_trailing_dot_ex : stem "a." = "a.".
Proof. reflexivity. Qed.

Example int_ex : int_of_digits "0042" = 42%Z.
Proof. reflexivity. Qed.

End StrExamples.

(** ** The conversion loops *)

(** A loop whose every iteration appends exactly one record, related to the
    item it processed by [P]. *)
Section AppendingLoop.
Context {S A R : Type}.
Variable step : S -> A -> S.
Variable res : S -> list R.
Variable P : A -> R -> Prop.
Hypothesis step_appends : forall st a, exists r, res (step st a) = res st ++ [r] /\ P a r.

Lemma fold_appends (l : list A) :
  forall st, exists rs, res (fold_left step l st) = res st ++ rs /\ Forall2 P l rs.
Proof.
  induction l as [|a l IH]; intros st; simpl.
  - exists []. split; [by rewrite app_nil_r | constructor].
  - destruct (step_appends st a) as (r & Hr & HP).
    destruct (IH (step st a)) as (rs & Hrs & HF).
    exists (r :: rs). split.
    + rewrite Hrs, Hr, <- app_assoc. reflexivity.
    + by constructor.
Qed.
End AppendingLoop.

Module BasicLoop.
Import PyStr Basic LoopSpec.

Lemma basic_convert_one_appends env tbl fmt st f :
  exists r, results (convert_one env tbl fmt st f) = results st ++ [r] /\
            basic_recorded env tbl fmt f r /\ basic_exclusive r.
Proof.
  unfold convert_one, basic_recorded, basic_raises, basic_exclusive. simpl.
  destruct (falsy_format (get_file_format tbl (name f))) eqn:Hf.
  - eexists. split; [reflexivity|]. split; [split; [reflexivity|]|].
    + intros e [? _]. discriminate.
    + right. repeat split; eauto.
  - destruct (attempt env fmt (tmp_file_of f)) as [[doc content]|e] eqn:Ha; simpl.
    + eexists. split; [reflexivity|]. split; [split; [reflexivity|]|].
      * intros e [_ ?]. discriminate.
      * left. repeat split; eauto.
    + eexists. split; [reflexivity|]. split; [split; [reflexivity|]|].
      * intros e' [_ He]. injection He as <-. split; reflexivity.
      * right. repeat split; eauto.
Qed.

Lemma basic_convert_loop_results env tbl fmt files st :
  exists rs, results (convert_loop env tbl fmt files st) = results st ++ rs /\
             Forall2 (fun f r => basic_recorded env tbl fmt f r /\ basic_exclusive r) files rs.
Proof.
  unfold convert_loop.
  apply (fold_appends (convert_one env tbl fmt) results
           (fun f r => basic_recorded env tbl fmt f r /\ basic_exclusive r)).
  intros. apply basic_convert_one_appends.
Qed.

Lemma basic_convert_documents_results env tbl fs0 files fmt :
  Forall2 (fun f r => basic_recorded env tbl fmt f r /\ basic_exclusive r)
          files (results (convert_documents env tbl fs0 files fmt)).
Proof.
  unfold convert_documents. simpl.
  destruct (basic_convert_loop_results env tbl fmt files (mkState fs0 [] 1)) as (rs & -> & H).
  exact H.
Qed.

End BasicLoop.

Module EnhancedLoop.
Import PyStr Enhanced LoopSpec.

Lemma fresh_path_free (m : gmap positive TmpFile) : m !! fresh_path m = None.
Proof. apply not_elem_of_dom. unfold fresh_path. apply is_fresh. Qed.

(** One iteration: one record more, the file system as it was. *)
Lemma enh_convert_one_spec env fmt st f :
  exists r,
    conversion_results (convert_one env fmt st f) = conversion_results st ++ [r] /\
    (enhanced_recorded env fmt f r /\ enhanced_exclusive r) /\
    fs (convert_one env fmt st f) = fs st /\
    success_count (convert_one env fmt st f) =
      (if bool_decide (r !! "success" = Some (VBool true))
       then S (success_count st) else success_count st).
Proof.
  unfold convert_one, enhanced_recorded, enhanced_raises, enhanced_exclusive. simpl.
  rewrite lookup_insert_eq.
  pose proof (fresh_path_free (fs st)) as Hfree.
  assert (Hfs : delete (fresh_path (fs st))
                  (<[fresh_path (fs st) := tmp_file_of f]> (fs st)) = fs st).
  { rewrite delete_insert_eq. by apply delete_id. }
  destruct (attempt env fmt (tmp_file_of f)) as [[[doc content] ext]|e] eqn:Ha; simpl.
  - eexists. split; [reflexivity|]. split; [split; [split; [reflexivity|]|]|].
    + intros e ?. discriminate.
    + left. repeat split; eauto.
    + split; [exact Hfs|reflexivity].
  - unfold on_exception, cleanup. simpl. rewrite lookup_insert_eq. simpl.
    eexists. split; [reflexivity|]. split; [split; [split; [reflexivity|]|]|].
    + intros e' He. injection He as <-. split; reflexivity.
    + right. repeat split; eauto.
    + split; [exact Hfs|reflexivity].
Qed.

Lemma enh_convert_loop_results env fmt files st :
  exists rs, conversion_results (convert_loop env fmt files st) = conversion_results st ++ rs /\
             Forall2 (fun f r => enhanced_recorded env fmt f r /\ enhanced_exclusive r) files rs.
Proof.
  unfold convert_loop.
  apply (fold_appends (convert_one env fmt) conversion_results
           (fun f r => enhanced_recorded env fmt f r /\ enhanced_exclusive r)).
  intros st' a. destruct (enh_convert_one_spec env fmt st' a) as (r & ? & ? & _). eauto.
Qed.

(** The loop leaves the file system as it found it. *)
Lemma enh_convert_loop_fs env fmt files :
  forall st, fs (convert_loop env fmt files st) = fs st.
Proof.
  unfold convert_loop. induction files as [|f files IH]; intros st; simpl; [reflexivity|].
  rewrite IH. destruct (enh_convert_one_spec env fmt st f) as (r & _ & _ & H & _). exact H.
Qed.

End EnhancedLoop.

Module LoopClaims.
Import LoopSpec Fixtures.



(** The batch of the fixtures, run: the second file fails, the third is
    converted all the same. *)
Example basic_batch_statuses :
  map (fun r => r !! "status")
      (Basic.results (Basic.convert_documents env_mixed formats ∅ batch "markdown"))
  = [Some (VStr "success"); Some (VStr "error"); Some (VStr "success")].
Proof. vm_compute. reflexivity. Qed.

Example enhanced_batch_statuses :
  map (fun r => r !! "success")
      (Enhanced.conversion_results
         (Enhanced.convert_loop env_mixed "Markdown" batch (Enhanced.mkState ∅ [] 0 0)))
  = [Some (VBool true); Some (VBool false); Some (VBool true)].
Proof. vm_compute. reflexivity. Qed.

(** C3.  Every record appended during a run is a success record with a
    content and no error message, or a failure record with an error message
    and no content. *)
Theorem C3_records_exclusive
    (env : Env) (tbl : list (string * list string)) (fs0 : gmap positive TmpFile)
    (files : list UploadedFile) (fmt : string) :
  Forall basic_exclusive (Basic.results (Basic.convert_documents env tbl fs0 files fmt)) /\
  Forall enhanced_exclusive
    (Enhanced.conversion_results
       (Enhanced.convert_loop env fmt files (Enhanced.mkState fs0 [] 0 0))).
Proof.
  split.
  - pose proof (BasicLoop.basic_convert_documents_results env tbl fs0 files fmt) as HF.
    induction HF as [|f r fs' rs [_ Hex] _ IH]; constructor; assumption.
  - destruct (EnhancedLoop.enh_convert_loop_results env fmt files (Enhanced.mkState fs0 [] 0 0))
      as (rs & Hrs & HF).
    simpl in Hrs. rewrite Hrs. clear Hrs.
    induction HF as [|f r fs' rs' [_ Hex] _ IH]; constructor; assumption.
Qed.

End LoopClaims.

Module CleanupClaims.
Import LoopSpec Fixtures.

(** In src/docling_ui.py an iteration whose conversion succeeds leaves the
    file system as it found it. *)
Lemma basic_success_unlinks env tbl fmt st f doc content :
  Basic.falsy_format (Basic.get_file_format tbl (name f)) = false ->
  Basic.attempt env fmt (Basic.tmp_file_of f) = Ret (doc, content) ->
  Basic.fs (Basic.convert_one env tbl fmt st f) = Basic.fs st.
Proof.
  intros Hf Ha. unfold Basic.convert_one. simpl. rewrite Hf, Ha. simpl.
  rewrite delete_insert_eq. apply delete_id, EnhancedLoop.fresh_path_free.
Qed.

(** In src/docling_ui.py an iteration whose conversion raises leaves the
    temporary file behind: the [except] branch has no [os.unlink]. *)
Lemma basic_exception_leaks env tbl fmt st f e :
  basic_raises env tbl fmt f e ->
  Basic.fs (Basic.convert_one env tbl fmt st f)
  = <[fresh_path (Basic.fs st) := Basic.tmp_file_of f]> (Basic.fs st).
Proof.
  intros [Hf Ha]. unfold Basic.convert_one. simpl. rewrite Hf, Ha. reflexivity.
Qed.

(** The enhanced program unlinks on both paths: a whole run leaves the
    file system as it found it. *)
Lemma enhanced_run_keeps_fs env fmt files fs0 :
  Enhanced.fs (Enhanced.convert_loop env fmt files (Enhanced.mkState fs0 [] 0 0)) = fs0.
Proof. apply EnhancedLoop.enh_convert_loop_fs. Qed.

(** C2.  The temporary file of an upload is to be unlinked before the loop
    moves on, on the success path and on the exception path.  The enhanced
    program does so ([enhanced_run_keeps_fs]); src/docling_ui.py does not on
    the exception path: after a batch of one file whose conversion raises,
    the temporary file is still there. *)
Theorem C2_basic_leaks_temp_file_on_exception :
  Basic.fs (Basic.convert_documents env_mixed formats ∅ [bad_pdf] "markdown") !! 1%positive
    = Some (mkTmpFile ".pdf" "bad")
  /\
  Enhanced.fs (Enhanced.convert_loop env_mixed "Markdown" [bad_pdf] (Enhanced.mkState ∅ [] 0 0))
    = ∅.
Proof. split; vm_compute; reflexivity. Qed.

End CleanupClaims.

Module MessageClaims.
Import LoopSpec Fixtures.

(** C8, as stated, fails in the enhanced program: an exception whose text
    contains "No such file or directory" is not stored as [str(e)]. *)
Lemma C8_counterexample :
  exists r,
    Enhanced.conversion_results
      (Enhanced.convert_loop env_enoent "Markdown" [good_pdf] (Enhanced.mkState ∅ [] 0 0)) !! 0
      = Some r /\
    enhanced_raises env_enoent "Markdown" good_pdf enoent /\
    r !! "error" <> Some (VStr (str enoent)).
Proof.
  eexists. split; [vm_compute; reflexivity|]. split; [reflexivity|].
  vm_compute. intros H. discriminate H.
Qed.

(** C8, amended.  In src/docling_ui.py every caught exception is stored as
    [str(e)], whatever its class and text.  In the enhanced program it is
    stored as [str(e)] unless that text contains "No such file or
    directory", in which case [str(e)] is wrapped in a fixed explanation. *)
Theorem C8_stringification
    (env : Env) (tbl : list (string * list string)) (fs0 : gmap positive TmpFile)
    (files : list UploadedFile) (fmt : string) (i : nat) (f : UploadedFile) (e : Exn) :
  files !! i = Some f ->
  (basic_raises env tbl fmt f e ->
   exists r, Basic.results (Basic.convert_documents env tbl fs0 files fmt) !! i = Some r /\
             r !! "message" = Some (VStr (str e)))
  /\
  (enhanced_raises env fmt f e ->
   exists r, Enhanced.conversion_results
               (Enhanced.convert_loop env fmt files (Enhanced.mkState fs0 [] 0 0)) !! i = Some r /\
             r !! "error" =
               Some (VStr (if PyStr.contains "No such file or directory" (str e)
                           then wrapped (str e) else str e))).
Proof.
  intros Hi. split; intros He.
  - pose proof (BasicLoop.basic_convert_documents_results env tbl fs0 files fmt) as HF.
    destruct (Forall2_lookup_l _ _ _ _ _ HF Hi) as (r & Hr & [_ Hrec] & _).
    exists r. split; [exact Hr|]. apply (Hrec e He).
  - destruct (EnhancedLoop.enh_convert_loop_results env fmt files (Enhanced.mkState fs0 [] 0 0))
      as (rs & Hrs & HF).
    simpl in Hrs. rewrite Hrs.
    destruct (Forall2_lookup_l _ _ _ _ _ HF Hi) as (r & Hr & [_ Hrec] & _).
    exists r. split; [exact Hr|]. apply (Hrec e He).
Qed.

Lemma C8_witness :
  batch !! 1 = Some bad_pdf /\
  basic_raises env_mixed formats "markdown" bad_pdf boom /\
  exists r, Basic.results (Basic.convert_documents env_mixed formats ∅ batch "markdown") !! 1
              = Some r /\
            r !! "message" = Some (VStr (str boom)).
Proof.
  split; [reflexivity|].
  assert (H : basic_raises env_mixed formats "markdown" bad_pdf boom)
    by (split; reflexivity).
  split; [exact H|].
  exact (proj1 (C8_stringification env_mixed formats ∅ batch "markdown" 1 bad_pdf boom eq_refl) H).
Defined.

End MessageClaims.

(** ** Shapes of the records *)

Module Shapes.
Import LoopSpec.

Lemma basic_results_shape env tbl fs0 files fmt :
  Forall (basic_shape fmt) (Basic.results (Basic.convert_documents env tbl fs0 files fmt)).
Proof.
  unfold Basic.convert_documents, Basic.convert_loop. simpl.
  destruct (fold_appends (Basic.convert_one env tbl fmt) Basic.results
              (fun _ r => basic_shape fmt r)) with (l := files) (st := Basic.mkState fs0 [] 1)
    as (rs & Hrs & HF).
  - intros st f. unfold Basic.convert_one, basic_shape. simpl.
    destruct (Basic.falsy_format _).
    + eexists. split; [reflexivity|]. right. right. eauto.
    + destruct (Basic.attempt _ _ _) as [[doc content]|e]; simpl.
      * eexists. split; [reflexivity|]. left. eauto 10.
      * eexists. split; [reflexivity|]. right. left. eauto 10.
  - rewrite Hrs. simpl. clear Hrs. induction HF; constructor; assumption.
Qed.

Lemma export_extension fmt doc : snd (Enhanced.export fmt doc) = extension_of fmt.
Proof.
  unfold Enhanced.export, extension_of.
  repeat (destruct (String.eqb fmt _); [reflexivity|]). reflexivity.
Qed.

Lemma attempt_extension env fmt tmp doc content ext :
  Enhanced.attempt env fmt tmp = Ret (doc, content, ext) -> ext = extension_of fmt.
Proof.
  unfold Enhanced.attempt. destruct (convert env tmp) as [d|]; [|discriminate].
  pose proof (export_extension fmt d) as He.
  destruct (Enhanced.export fmt d) as [[c|] x]; [|discriminate].
  intros [= <- <- <-]. exact He.
Qed.

Lemma enhanced_step_shape env fmt st f :
  exists r,
    Enhanced.conversion_results (Enhanced.convert_one env fmt st f)
      = Enhanced.conversion_results st ++ [r] /\
    enhanced_shape fmt r.
Proof.
  unfold Enhanced.convert_one, enhanced_shape. simpl. rewrite lookup_insert_eq.
  destruct (Enhanced.attempt env fmt (Enhanced.tmp_file_of f)) as [[[doc content] ext]|e] eqn:Ha.
  - apply attempt_extension in Ha as ->. simpl.
    eexists. split; [reflexivity|]. left. eauto 10.
  - unfold Enhanced.on_exception, Enhanced.cleanup. simpl. rewrite lookup_insert_eq. simpl.
    eexists. split; [reflexivity|]. right. eauto 10.
Qed.

Lemma enhanced_results_shape env fmt files fs0 :
  Forall (enhanced_shape fmt)
    (Enhanced.conversion_results
       (Enhanced.convert_loop env fmt files (Enhanced.mkState fs0 [] 0 0))).
Proof.
  unfold Enhanced.convert_loop.
  destruct (fold_appends (Enhanced.convert_one env fmt) Enhanced.conversion_results
              (fun _ r => enhanced_shape fmt r)) with (l := files)
                                                      (st := Enhanced.mkState fs0 [] 0 0)
    as (rs & Hrs & HF).
  - intros. apply enhanced_step_shape.
  - rewrite Hrs. simpl. clear Hrs. induction HF; constructor; assumption.
Qed.

(** The counter of the enhanced loop is the number of success records. *)
Lemma enhanced_count env fmt files :
  forall st,
    Enhanced.success_count st
      = length (List.filter enhanced_succeeded (Enhanced.conversion_results st)) ->
    Enhanced.success_count (Enhanced.convert_loop env fmt files st)
      = length (List.filter enhanced_succeeded
                  (Enhanced.conversion_results (Enhanced.convert_loop env fmt files st))).
Proof.
  unfold Enhanced.convert_loop.
  induction files as [|f files IH]; intros st Hst; simpl; [exact Hst|].
  apply IH.
  destruct (EnhancedLoop.enh_convert_one_spec env fmt st f) as (r & Hr & _ & _ & Hc).
  rewrite Hr, Hc, List.filter_app, length_app. simpl.
  unfold enhanced_succeeded at 2.
  destruct (bool_decide (r !! "success" = Some (VBool true))); simpl; lia.
Qed.

End Shapes.

(** ** Downloads *)

Module DisplayLemmas.
Import LoopSpec.

Lemma basic_succeeded_success n c fmt p t :
  basic_succeeded (Basic.success_record n c fmt p t) = true.
Proof. reflexivity. Qed.

Lemma basic_succeeded_error n m t : basic_succeeded (Basic.error_record n m t) = false.
Proof. reflexivity. Qed.

Lemma basic_succeeded_unsupported n : basic_succeeded (Basic.unsupported_record n) = false.
Proof. reflexivity. Qed.

Lemma basic_is_success_shape fmt r :
  basic_shape fmt r -> BasicDisplay.is_success r = Some (basic_succeeded r).
Proof. intros [(?&?&?&?&->)|[(?&?&?&->)|(?&->)]]; reflexivity. Qed.

(** Every record built by the loop is shown, and shown as it should. *)
Lemma basic_show_shaped fmt i r :
  basic_shape fmt r ->
  exists s, BasicDisplay.show_result i r = Some s /\ basic_shown_for fmt r s.
Proof.
  unfold basic_shown_for.
  intros [(n&c&p&t&->)|[(n&m&t&->)|(n&->)]].
  - rewrite basic_succeeded_success. eexists. split; [reflexivity|].
    eexists _, n, c. repeat split.
  - rewrite basic_succeeded_error. eexists. split; [reflexivity|]. eauto.
  - rewrite basic_succeeded_unsupported. eexists. split; [reflexivity|]. eauto.
Qed.

Lemma basic_show_results_shaped fmt rs :
  Forall (basic_shape fmt) rs ->
  forall i, exists items,
    BasicDisplay.show_results i rs = Some items /\ Forall2 (basic_shown_for fmt) rs items.
Proof.
  induction 1 as [|r rs Hr _ IH]; intros i; simpl.
  - exists []. split; [reflexivity|constructor].
  - destruct (basic_show_shaped fmt i r Hr) as (s & -> & Hs).
    destruct (IH (S i)) as (items & -> & Hitems).
    exists (s :: items). split; [reflexivity|by constructor].
Qed.

Lemma basic_count_shaped fmt rs :
  Forall (basic_shape fmt) rs ->
  BasicDisplay.count_success rs = Some (length (List.filter basic_succeeded rs)).
Proof.
  induction 1 as [|r rs Hr _ IH]; simpl; [reflexivity|].
  rewrite (basic_is_success_shape fmt r Hr), IH.
  destruct (basic_succeeded r); reflexivity.
Qed.

Lemma enhanced_succeeded_success n c e t pg :
  enhanced_succeeded (Enhanced.success_record n c e t pg) = true.
Proof. reflexivity. Qed.

Lemma enhanced_succeeded_error n m t p :
  enhanced_succeeded (Enhanced.error_record n m t p) = false.
Proof. reflexivity. Qed.

Lemma enhanced_show_shaped fmt ts i r :
  enhanced_shape fmt r ->
  exists s, EnhancedDisplay.show_result fmt ts i r = Some s /\ enhanced_shown_for fmt r s.
Proof.
  unfold enhanced_shown_for.
  intros [(n&c&t&pg&->)|(n&m&t&p&->)].
  - rewrite enhanced_succeeded_success. eexists. split; [reflexivity|].
    eexists _, n, c. repeat split.
  - rewrite enhanced_succeeded_error. eexists. split; [reflexivity|]. eauto.
Qed.

Lemma enhanced_show_results_shaped fmt ts rs :
  Forall (enhanced_shape fmt) rs ->
  forall i, exists items,
    EnhancedDisplay.show_results fmt ts i rs = Some items /\
    Forall2 (enhanced_shown_for fmt) rs items.
Proof.
  induction 1 as [|r rs Hr _ IH]; intros i; simpl.
  - exists []. split; [reflexivity|constructor].
  - destruct (enhanced_show_shaped fmt ts i r Hr) as (s & -> & Hs).
    destruct (IH (S i)) as (items & -> & Hitems).
    exists (s :: items). split; [reflexivity|by constructor].
Qed.

End DisplayLemmas.

Module DownloadClaims.
Import LoopSpec Fixtures.


(** The buttons of the fixture batch in src/docling_ui.py. *)
Example basic_batch_downloads :
  (fun page => map (fun s => match s with
                             | BasicDisplay.ShownSuccess b => Some (db_file_name b, db_data b)
                             | BasicDisplay.ShownFailure _ => None
                             end) (BasicDisplay.shown page))
    <$> BasicDisplay.display_results
          (Basic.results (Basic.convert_documents env_mixed formats ∅ batch "markdown"))
  = Some [Some ("a.md", "# Title"); None; Some ("notes.md", "# Title")].
Proof. vm_compute. reflexivity. Qed.

End DownloadClaims.

Module ArchiveLemmas.
Import LoopSpec.

(** The members written by src/docling_ui.py, for any list of records on
    which the archive code does not raise. *)
Lemma basic_zip_members_spec rs :
  forall z, BasicDisplay.zip_members rs = Some z ->
            Forall2 basic_member_of (List.filter basic_succeeded rs) z.
Proof.
  induction rs as [|r rs IH]; simpl; intros z Hz.
  - injection Hz as <-. constructor.
  - unfold BasicDisplay.is_success in Hz. unfold basic_succeeded at 1.
    destruct (r !! "status") as [v|] eqn:Hst; [|discriminate].
    destruct (decide (v = VStr "success")) as [->|Hne].
    + rewrite bool_decide_eq_true_2 by reflexivity.
      rewrite bool_decide_eq_true_2 in Hz by reflexivity.
      destruct (r !! "format") as [vformat|] eqn:Hfo; [|discriminate].
      destruct (r !! "filename") as [vf|] eqn:Hfn; [|discriminate].
      destruct (r !! "content") as [vc|] eqn:Hco; [|discriminate].
      destruct vf as [| | | |filename]; try discriminate.
      destruct vc as [| | | |content]; try discriminate.
      simpl in Hz.
      destruct (BasicDisplay.zip_members rs) as [l|]; [|discriminate].
      injection Hz as <-. constructor; [|by apply IH].
      exists filename, content, vformat. repeat split; assumption.
    + rewrite bool_decide_eq_false_2 by congruence.
      rewrite bool_decide_eq_false_2 in Hz by assumption.
      by apply IH.
Qed.

(** On the records of a run the archive code does not raise. *)
Lemma basic_zip_members_total fmt rs :
  Forall (basic_shape fmt) rs -> exists z, BasicDisplay.zip_members rs = Some z.
Proof.
  induction 1 as [|r rs Hr _ [z IH]]; simpl; [eauto|].
  destruct Hr as [(n&c&p&t&->)|[(n&m&t&->)|(n&->)]].
  - change (BasicDisplay.is_success (Basic.success_record n c fmt p t)) with (Some true).
    change (Basic.success_record n c fmt p t !! "format") with (Some (VStr fmt)).
    change (Basic.success_record n c fmt p t !! "filename") with (Some (VStr n)).
    change (Basic.success_record n c fmt p t !! "content") with (Some (VStr c)).
    simpl. rewrite IH. eauto.
  - change (BasicDisplay.is_success (Basic.error_record n m t)) with (Some false). eauto.
  - change (BasicDisplay.is_success (Basic.unsupported_record n)) with (Some false). eauto.
Qed.

Lemma enhanced_zip_members_spec fmt rs :
  Forall (enhanced_shape fmt) rs ->
  exists z, EnhancedDisplay.zip_members rs = Some z /\
            Forall2 enhanced_member_of (List.filter enhanced_succeeded rs) z.
Proof.
  induction 1 as [|r rs Hr _ (z & IH & HF)]; simpl.
  - exists []. split; [reflexivity|constructor].
  - destruct Hr as [(n&c&t&pg&->)|(n&m&t&p&->)].
    + rewrite DisplayLemmas.enhanced_succeeded_success.
      change (Enhanced.success_record n c (extension_of fmt) t pg !! "success")
        with (Some (VBool true)).
      change (EnhancedDisplay.entry_fields (Enhanced.success_record n c (extension_of fmt) t pg))
        with (Some (n, extension_of fmt, c)).
      simpl. rewrite IH. eexists. split; [reflexivity|].
      constructor; [|exact HF].
      exists n, c, (extension_of fmt). repeat split.
    + rewrite DisplayLemmas.enhanced_succeeded_error.
      change (Enhanced.error_record n m t p !! "success") with (Some (VBool false)).
      simpl. eauto.
Qed.

(** When src/docling_ui.py offers the archive: nothing raises on the
    records of a run, and the batch download is there exactly when more
    than one file was converted. *)
Lemma basic_archive_offered env tbl fs0 files fmt :
  exists page z,
    BasicDisplay.display_results
      (Basic.results (Basic.convert_documents env tbl fs0 files fmt)) = Some page /\
    BasicDisplay.zip_members
      (Basic.results (Basic.convert_documents env tbl fs0 files fmt)) = Some z /\
    BasicDisplay.batch_download page =
      if (1 <? length (List.filter basic_succeeded
                         (Basic.results (Basic.convert_documents env tbl fs0 files fmt))))%nat
      then Some z else None.
Proof.
  pose proof (Shapes.basic_results_shape env tbl fs0 files fmt) as Hs.
  destruct (basic_zip_members_total fmt _ Hs) as (z & Hz).
  destruct (DisplayLemmas.basic_show_results_shaped fmt _ Hs 0) as (items & Hitems & _).
  unfold BasicDisplay.display_results.
  rewrite (DisplayLemmas.basic_count_shaped fmt _ Hs), Hitems, Hz.
  eexists _, z. split; [reflexivity|]. split; [reflexivity|].
  simpl. destruct (1 <? _)%nat; reflexivity.
Qed.

(** The same for the enhanced program, on a batch that is not empty. *)
Lemma enhanced_archive_offered env fs0 ts f files fmt :
  exists out z,
    EnhancedDisplay.convert_files env fs0 ts (f :: files) fmt = Some out /\
    EnhancedDisplay.final out
      = Enhanced.convert_loop env fmt (f :: files) (Enhanced.mkState fs0 [] 0 0) /\
    EnhancedDisplay.zip_members (Enhanced.conversion_results (EnhancedDisplay.final out))
      = Some z /\
    EnhancedDisplay.batch_download out =
      if (1 <? length (List.filter enhanced_succeeded
                         (Enhanced.conversion_results (EnhancedDisplay.final out))))%nat
      then Some z else None.
Proof.
  unfold EnhancedDisplay.convert_files.
  set (st := Enhanced.convert_loop env fmt (f :: files) (Enhanced.mkState fs0 [] 0 0)).
  pose proof (Shapes.enhanced_results_shape env fmt (f :: files) fs0) as Hs. fold st in Hs.
  destruct (enhanced_zip_members_spec fmt _ Hs) as (z & Hz & _).
  destruct (DisplayLemmas.enhanced_show_results_shaped fmt ts _ Hs 0) as (items & Hitems & _).
  assert (Hc : Enhanced.success_count st
               = length (List.filter enhanced_succeeded (Enhanced.conversion_results st))).
  { apply Shapes.enhanced_count. reflexivity. }
  rewrite Hz, Hitems, Hc.
  destruct (1 <? _)%nat eqn:Hlt; eexists _, z;
    (split; [reflexivity|]); (split; [reflexivity|]); (split; [exact Hz|]);
    cbn [EnhancedDisplay.batch_download EnhancedDisplay.final]; by rewrite Hlt.
Qed.

End ArchiveLemmas.

Module ArchiveClaims.
Import LoopSpec Fixtures.



(** The enhanced program on the same batch. *)
Example enhanced_batch_archive :
  EnhancedDisplay.batch_download
    <$> EnhancedDisplay.convert_files env_mixed ∅ 1700000000000 batch "Markdown"
  = Some (Some [mkZipEntry "a.md" "# Title"; mkZipEntry "notes.md" "# Title"]).
Proof. vm_compute. reflexivity. Qed.

(** With a single success no archive is offered. *)
Example basic_single_success_no_archive :
  BasicDisplay.batch_download
    <$> BasicDisplay.display_results
          (Basic.results (Basic.convert_documents env_mixed formats ∅ [good_pdf; bad_pdf] "html"))
  = Some None.
Proof. vm_compute. reflexivity. Qed.

End ArchiveClaims.

(** ** MIME types *)

Module MimeClaims.
Import LoopSpec Fixtures.

(** [get_mime_type] of the enhanced program is the fixed, total mapping. *)
Lemma enhanced_get_mime_type_spec (format_type : string) :
  Enhanced.get_mime_type format_type =
    if String.eqb format_type "markdown" then "text/markdown"
    else if String.eqb format_type "html" then "text/html"
    else if String.eqb format_type "json" then "application/json"
    else if String.eqb format_type "text" then "text/plain"
    else "text/plain".
Proof.
  unfold Enhanced.get_mime_type, Enhanced.mime_types.
  destruct (String.eqb_spec format_type "markdown") as [->|H1]; [reflexivity|].
  destruct (String.eqb_spec format_type "html") as [->|H2]; [reflexivity|].
  destruct (String.eqb_spec format_type "json") as [->|H3]; [reflexivity|].
  destruct (String.eqb_spec format_type "text") as [->|H4]; [reflexivity|].
  rewrite !lookup_insert_ne by congruence. reflexivity.
Qed.

(** The MIME type src/docling_ui.py attaches to a download: ["text/"]
    followed by the file extension. *)
Lemma basic_mime_is_text_slash_extension i r b :
  BasicDisplay.show_result i r = Some (BasicDisplay.ShownSuccess b) ->
  exists vformat, r !! "format" = Some vformat /\
                  db_mime b = ("text/" ++ BasicDisplay.file_extension vformat)%string.
Proof.
  unfold BasicDisplay.show_result.
  destruct (r !! "filename") as [vf|]; [|discriminate].
  destruct (BasicDisplay.is_success r) as [[|]|]; try discriminate.
  - destruct (r !! "format") as [vformat|]; [|discriminate].
    destruct (r !! "content") as [vc|]; [|discriminate].
    destruct (BasicDisplay.formats_as_float _); [|discriminate].
    destruct (BasicDisplay.as_str vc); [|discriminate].
    destruct (BasicDisplay.as_str vf); [|discriminate].
    destruct (BasicDisplay.as_str vformat); [|discriminate].
    intros [= <-]. eauto.
  - destruct (r !! "message"); [|discriminate].
    destruct (BasicDisplay.formats_as_float _); discriminate.
Qed.

(** C7.  The MIME type of a download is to be the fixed mapping of the
    output format (markdown to text/markdown, json to application/json,
    text to text/plain).  [get_mime_type] of the enhanced program is that
    mapping ([enhanced_get_mime_type_spec]); src/docling_ui.py attaches
    text/md to a Markdown download, text/json to a JSON one and text/txt to
    a plain-text one. *)
Theorem C7_basic_mime_is_not_the_fixed_mapping :
  map (fun fmt =>
         (fun page => map (fun s => match s with
                                    | BasicDisplay.ShownSuccess b => Some (db_mime b)
                                    | BasicDisplay.ShownFailure _ => None
                                    end) (BasicDisplay.shown page))
           <$> BasicDisplay.display_results
                 (Basic.results (Basic.convert_documents env_mixed formats ∅ [good_pdf] fmt)))
      ["markdown"; "html"; "json"; "text"]
  = [Some [Some "text/md"]; Some [Some "text/html"];
     Some [Some "text/json"]; Some [Some "text/txt"]]
  /\
  map Enhanced.get_mime_type ["markdown"; "html"; "json"; "text"]
  = ["text/markdown"; "text/html"; "application/json"; "text/plain"].
Proof. split; vm_compute; reflexivity. Qed.

End MimeClaims.

(** ** The log handler: accessors *)

Module CopyLemmas.
Import HandlerSpec.

(** An accessor that allocates a new object holding the object found at
    [k0] returns a copy of it. *)
Lemma alloc_returns_copy {O : Type} (σ : gmap positive O) (internal : list positive)
    (get : gmap positive O -> option (positive * gmap positive O)) (k0 : positive) (v : O) :
  (forall τ : gmap positive O, τ !! k0 = Some v ->
      get τ = Some (fresh (dom τ), <[fresh (dom τ) := v]> τ)) ->
  σ !! k0 = Some v ->
  (forall k, k ∈ internal -> is_Some (σ !! k)) ->
  returns_copy σ internal get v.
Proof.
  intros Hget Hk0 Hint.
  assert (Hfresh : forall k, is_Some (σ !! k) -> k <> fresh (dom σ)).
  { intros k Hk ->. apply elem_of_dom in Hk. by apply is_fresh in Hk. }
  exists (fresh (dom σ)), (<[fresh (dom σ) := v]> σ).
  split; [by apply Hget|]. split; [by apply lookup_insert_eq|].
  intros o'. rewrite insert_insert_eq. split.
  - intros k Hk. apply lookup_insert_ne. apply not_eq_sym, Hfresh, Hint, Hk.
  - eexists _, _. split.
    + apply Hget. rewrite lookup_insert_ne; [exact Hk0|]. apply not_eq_sym, Hfresh. eauto.
    + apply lookup_insert_eq.
Qed.

End CopyLemmas.

Module CopyClaims.
Import HandlerSpec.

(** C9.  [get_page_progress] (and [get_logs] in the enhanced program)
    returns a copy of the handler's state: whatever is done to the returned
    dictionary or list, the handler's own [page_progress] and [logs] stay
    as they were, and the next call returns an equal value. *)
Theorem C9_accessors_return_copies
    (hb : Basic.LogCapture) (σb : gmap positive (gmap string Z)) (db : gmap string Z)
    (he : Enhanced.LogCapture) (σe : gmap positive Enhanced.Obj)
    (ls : list string) (de : gmap Z string) :
  σb !! Basic.page_progress hb = Some db ->
  σe !! Enhanced.logs he = Some (Enhanced.OList ls) ->
  σe !! Enhanced.page_progress he = Some (Enhanced.ODict de) ->
  returns_copy σb [Basic.page_progress hb] (Basic.get_page_progress hb) db /\
  returns_copy σe [Enhanced.logs he; Enhanced.page_progress he]
    (Enhanced.get_page_progress he) (Enhanced.ODict de) /\
  returns_copy σe [Enhanced.logs he; Enhanced.page_progress he]
    (Enhanced.get_logs he) (Enhanced.OList ls).
Proof.
  intros Hb Hl Hp.
  assert (Hint : forall k, k ∈ [Enhanced.logs he; Enhanced.page_progress he] ->
                           is_Some (σe !! k)).
  { intros k Hk. apply elem_of_cons in Hk as [->|Hk]; [eauto|].
    apply list_elem_of_singleton in Hk as ->. eauto. }
  split; [|split].
  - apply (CopyLemmas.alloc_returns_copy _ _ _ (Basic.page_progress hb)); [|exact Hb|].
    + intros τ Hτ. unfold Basic.get_page_progress. rewrite Hτ. reflexivity.
    + intros k Hk. apply list_elem_of_singleton in Hk as ->. eauto.
  - apply (CopyLemmas.alloc_returns_copy _ _ _ (Enhanced.page_progress he));
      [|exact Hp|exact Hint].
    intros τ Hτ. unfold Enhanced.get_page_progress. rewrite Hτ. reflexivity.
  - apply (CopyLemmas.alloc_returns_copy _ _ _ (Enhanced.logs he));
      [|exact Hl|exact Hint].
    intros τ Hτ. unfold Enhanced.get_logs. rewrite Hτ. reflexivity.
Qed.

Lemma C9_witness :
  returns_copy (snd basic_handler) [Basic.page_progress (fst basic_handler)]
    (Basic.get_page_progress (fst basic_handler)) (Basic.progress_dict 0 0) /\
  returns_copy (snd enhanced_handler)
    [Enhanced.logs (fst enhanced_handler); Enhanced.page_progress (fst enhanced_handler)]
    (Enhanced.get_page_progress (fst enhanced_handler)) (Enhanced.ODict ∅) /\
  returns_copy (snd enhanced_handler)
    [Enhanced.logs (fst enhanced_handler); Enhanced.page_progress (fst enhanced_handler)]
    (Enhanced.get_logs (fst enhanced_handler)) (Enhanced.OList []).
Proof.
  apply (C9_accessors_return_copies (fst basic_handler) (snd basic_handler)
           (Basic.progress_dict 0 0)
           (fst enhanced_handler) (snd enhanced_handler) [] ∅).
  - vm_compute. reflexivity.
  - vm_compute. reflexivity.
  - vm_compute. reflexivity.
Defined.

(** In src/docling_ui.py [get_logs] is no copy: it drains the queue, so a
    second call returns the empty list. *)
Example basic_get_logs_drains :
  let h := Basic.mkLogCapture ["a"; "b"] 1%positive in
  fst (Basic.get_logs h) = ["a"; "b"] /\
  fst (Basic.get_logs (snd (Basic.get_logs h))) = [].
Proof. split; reflexivity. Qed.

End CopyClaims.

(** ** Strings *)

Module StringLemmas.
Import PyStr HandlerSpec.
Local Open Scope string_scope.

Lemma str_app_cons (x : ascii) (a b : string) : String x a ++ b = String x (a ++ b).
Proof. reflexivity. Qed.

Lemma str_app_nil_l (a : string) : "" ++ a = a.
Proof. reflexivity. Qed.

Lemma str_app_assoc (a b c : string) : (a ++ b) ++ c = a ++ (b ++ c).
Proof.
  induction a as [|x a IH]; [reflexivity|].
  rewrite !str_app_cons. by rewrite IH.
Qed.

Lemma str_app_nil_r (a : string) : a ++ "" = a.
Proof.
  induction a as [|x a IH]; [reflexivity|].
  rewrite str_app_cons. by rewrite IH.
Qed.

Lemma str_length_app (a b : string) :
  String.length (a ++ b) = (String.length a + String.length b)%nat.
Proof.
  induction a as [|x a IH]; [reflexivity|].
  rewrite str_app_cons. simpl. by rewrite IH.
Qed.

Lemma strip_prefix_app (p s : string) : strip_prefix p (p ++ s) = Some s.
Proof.
  induction p as [|a p IH]; [reflexivity|].
  rewrite str_app_cons. simpl. by rewrite Ascii.eqb_refl.
Qed.

Lemma strip_prefix_Some (p : string) :
  forall s r, strip_prefix p s = Some r -> s = p ++ r.
Proof.
  induction p as [|a p IH]; simpl; intros s r H.
  - by injection H as ->.
  - destruct s as [|b s]; [discriminate|].
    destruct (Ascii.eqb_spec a b) as [->|]; [|discriminate].
    by rewrite str_app_cons, (IH s r H).
Qed.

Lemma startswith_app (p s : string) : startswith p (p ++ s) = true.
Proof.
  induction p as [|a p IH]; [reflexivity|].
  rewrite str_app_cons. simpl. by rewrite Ascii.eqb_refl.
Qed.

Lemma contains_unfold (p s : string) :
  contains p s = startswith p s || match s with
                                   | EmptyString => false
                                   | String _ s' => contains p s'
                                   end.
Proof. destruct s; reflexivity. Qed.

Lemma contains_app (p pre post : string) : contains p (pre ++ p ++ post) = true.
Proof.
  induction pre as [|c pre IH].
  - change ("" ++ p ++ post) with (p ++ post).
    rewrite contains_unfold, startswith_app. reflexivity.
  - change (String c pre ++ p ++ post) with (String c (pre ++ p ++ post)).
    rewrite contains_unfold, IH. apply orb_true_r.
Qed.

Lemma startswith_prefix_of (p q : string) :
  forall t, startswith (p ++ q) t = true -> startswith p t = true.
Proof.
  induction p as [|a p IH]; intros t; [reflexivity|].
  rewrite str_app_cons. simpl. destruct t as [|b t]; [discriminate|].
  destruct (Ascii.eqb a b); [apply IH|discriminate].
Qed.

Lemma contains_prefix_of (p q s : string) :
  contains (p ++ q) s = true -> contains p s = true.
Proof.
  induction s as [|c s IH].
  - rewrite (contains_unfold (p ++ q) ""), (contains_unfold p "").
    intros H. apply orb_true_iff in H as [H|H]; [|discriminate].
    apply orb_true_iff. left. by apply (startswith_prefix_of p q).
  - rewrite (contains_unfold (p ++ q) (String c s)), (contains_unfold p (String c s)).
    intros H. apply orb_true_iff. apply orb_true_iff in H as [H|H].
    + left. by apply (startswith_prefix_of p q).
    + right. by apply IH.
Qed.

Lemma all_digits_cons c d : all_digits (String c d) = is_digit c && all_digits d.
Proof. reflexivity. Qed.

Lemma span_digits_eq (s : string) :
  forall d r, span_digits s = (d, r) ->
              s = d ++ r /\ all_digits d = true /\ starts_with_digit r = false.
Proof.
  induction s as [|c s IH]; simpl; intros d r H.
  - injection H as <- <-. auto.
  - destruct (is_digit c) eqn:Hc.
    + destruct (span_digits s) as [d' r'].
      injection H as <- <-. destruct (IH d' r' eq_refl) as (-> & Hd & Hr).
      rewrite all_digits_cons, Hc, Hd, str_app_cons. auto.
    + injection H as <- <-. rewrite str_app_nil_l. simpl. auto.
Qed.

Lemma span_digits_app (d r : string) :
  all_digits d = true -> starts_with_digit r = false -> span_digits (d ++ r) = (d, r).
Proof.
  intros Hd Hr. induction d as [|c d IH].
  - rewrite str_app_nil_l. destruct r as [|c r]; [reflexivity|].
    simpl in Hr |- *. by rewrite Hr.
  - rewrite all_digits_cons in Hd. apply andb_true_iff in Hd as [Hc Hd].
    rewrite str_app_cons. simpl. by rewrite Hc, (IH Hd).
Qed.

End StringLemmas.

(** ** The log handler: emit *)

Module EmitLemmas.
Import PyStr HandlerSpec StringLemmas.
Local Open Scope string_scope.

Lemma eqb_empty_false (s : string) : s <> "" -> String.eqb s "" = false.
Proof. intros H. by apply String.eqb_neq. Qed.

(** [match_here] finds exactly the text described by [progress_at]. *)
Lemma match_here_complete (s x y : string) :
  progress_at s x y -> Basic.match_here s = Some (x, y).
Proof.
  intros (post & -> & Hx & Hy & Hdx & Hdy & Hpost).
  unfold Basic.match_here. rewrite strip_prefix_app.
  rewrite (span_digits_app x ("/" ++ y ++ post) Hdx) by reflexivity.
  cbv beta iota. rewrite (eqb_empty_false x Hx).
  change ("/" ++ y ++ post) with (String "/" (y ++ post)).
  cbv beta iota. rewrite Ascii.eqb_refl, (span_digits_app y post Hdy Hpost).
  cbv beta iota. rewrite (eqb_empty_false y Hy).
  reflexivity.
Qed.

Lemma match_here_sound (s x y : string) :
  Basic.match_here s = Some (x, y) -> progress_at s x y.
Proof.
  unfold Basic.match_here.
  destruct (strip_prefix _ s) as [rest|] eqn:Hp; [|discriminate].
  apply strip_prefix_Some in Hp as ->.
  destruct (span_digits rest) as [d1 r1] eqn:H1.
  apply span_digits_eq in H1 as (-> & Hd1 & _).
  destruct (String.eqb_spec d1 "") as [|Hn1]; [discriminate|].
  destruct r1 as [|c r2]; [discriminate|].
  destruct (Ascii.eqb_spec c "/") as [->|]; [|discriminate].
  destruct (span_digits r2) as [d2 r3] eqn:H2.
  apply span_digits_eq in H2 as (-> & Hd2 & Hr3).
  destruct (String.eqb_spec d2 "") as [|Hn2]; [discriminate|].
  intros [= <- <-]. exists r3. repeat split; assumption.
Qed.

Lemma re_search_unfold (s : string) :
  Basic.re_search s =
    match Basic.match_here s with
    | Some g => Some g
    | None => match s with
              | EmptyString => None
              | String _ s' => Basic.re_search s'
              end
    end.
Proof. destruct s; reflexivity. Qed.

(** [re_search] returns the groups of the first place where the text
    stands. *)
Lemma re_search_first (rest x y : string) :
  progress_at rest x y ->
  forall pre,
    (forall pre' rest' x' y',
        pre ++ rest = pre' ++ rest' -> String.length pre' < String.length pre ->
        ~ progress_at rest' x' y') ->
    Basic.re_search (pre ++ rest) = Some (x, y).
Proof.
  intros Hat. induction pre as [|c pre IH]; intros Hmin.
  - rewrite str_app_nil_l, re_search_unfold, (match_here_complete _ _ _ Hat). reflexivity.
  - rewrite str_app_cons, re_search_unfold.
    destruct (Basic.match_here (String c (pre ++ rest))) as [[x' y']|] eqn:Hm.
    + exfalso. apply match_here_sound in Hm.
      apply (Hmin "" (String c (pre ++ rest)) x' y'); [reflexivity|simpl; lia|exact Hm].
    + apply IH. intros pre' rest' x' y' Heq Hlen.
      apply (Hmin (String c pre') rest' x' y').
      * by rewrite !str_app_cons, Heq.
      * simpl. lia.
Qed.

Lemma re_search_occurs (s : string) :
  forall g, Basic.re_search s = Some g -> progress_occurs s.
Proof.
  induction s as [|c s IH]; intros [x y]; rewrite re_search_unfold.
  - destruct (Basic.match_here "") as [g|] eqn:Hm; [|discriminate].
    intros [= ->]. apply match_here_sound in Hm as (post & Hs & ? & ? & ? & ? & _).
    exists "", x, y, post. by rewrite str_app_nil_l.
  - destruct (Basic.match_here (String c s)) as [g|] eqn:Hm.
    + intros [= ->]. apply match_here_sound in Hm as (post & Hs & ? & ? & ? & ? & _).
      exists "", x, y, post. by rewrite str_app_nil_l.
    + intros H. destruct (IH _ H) as (pre & x' & y' & post & -> & ?).
      exists (String c pre), x', y', post. by rewrite str_app_cons.
Qed.

Lemma progress_at_contains (pre rest x y : string) :
  progress_at rest x y -> contains "Finished converting pages" (pre ++ rest) = true.
Proof.
  intros (post & -> & _).
  apply (contains_prefix_of "Finished converting pages" " ").
  change ("Finished converting pages" ++ " ") with "Finished converting pages ".
  apply contains_app.
Qed.

Lemma progress_occurs_contains (line : string) :
  progress_occurs line -> contains "Finished converting pages " line = true.
Proof. intros (pre & x & y & post & -> & _). apply contains_app. Qed.

Lemma py_int_within (ds : string) :
  within_limit ds -> py_int ds = Some (int_of_digits ds).
Proof.
  unfold within_limit, py_int. intros H.
  destruct (Nat.ltb_spec max_str_digits (String.length ds)) as [Hlt|_]; [lia|reflexivity].
Qed.


(** What [emit] of src/docling_ui.py does, by the result of the search. *)
Lemma basic_emit_match (line : string) (h : Basic.LogCapture)
    (σ : gmap positive (gmap string Z)) (x y : string) :
  contains "Finished converting pages" line = true ->
  Basic.re_search line = Some (x, y) ->
  within_limit x -> within_limit y ->
  Basic.emit line h σ
  = (Returns,
     (Basic.mkLogCapture (Basic.log_queue h ++ [line]) (fresh (dom σ)),
      <[fresh (dom σ) := Basic.progress_dict (int_of_digits x) (int_of_digits y)]> σ)).
Proof.
  intros Hc Hs Hx Hy. unfold Basic.emit.
  rewrite Hc, Hs, (py_int_within x Hx), (py_int_within y Hy). reflexivity.
Qed.


Lemma basic_emit_no_match (line : string) (h : Basic.LogCapture)
    (σ : gmap positive (gmap string Z)) :
  Basic.re_search line = None ->
  Basic.emit line h σ
  = (Returns,
     (Basic.mkLogCapture (Basic.log_queue h ++ [line]) (Basic.page_progress h), σ)).
Proof.
  intros Hs. unfold Basic.emit. rewrite Hs.
  destruct (contains _ line); reflexivity.
Qed.

Lemma basic_no_progress_no_match (line : string) :
  ~ progress_occurs line -> Basic.re_search line = None.
Proof.
  intros Hno. destruct (Basic.re_search line) as [g|] eqn:Hs; [|reflexivity].
  exfalso. apply Hno. by apply (re_search_occurs line g).
Qed.

(** *** The pattern of the enhanced program *)

Lemma is_digit_not_space (c : ascii) : is_digit c = true -> is_space c = false.
Proof.
  unfold is_digit, is_space. intros H.
  apply andb_true_iff in H as [H1 H2].
  apply Nat.leb_le in H1. apply Nat.leb_le in H2.
  apply orb_false_iff. split; [apply orb_false_iff; split|].
  - apply Nat.eqb_neq. lia.
  - apply andb_false_iff. right. apply Nat.leb_gt. lia.
  - apply andb_false_iff. right. apply Nat.leb_gt. lia.
Qed.

Lemma skip_spaces_app (ws n r : string) :
  all_spaces ws = true -> n <> "" -> all_digits n = true ->
  skip_spaces (ws ++ n ++ r) = n ++ r.
Proof.
  intros Hws Hn Hd. induction ws as [|c ws IH].
  - rewrite str_app_nil_l. destruct n as [|c n]; [contradiction|].
    rewrite all_digits_cons in Hd. apply andb_true_iff in Hd as [Hc _].
    rewrite str_app_cons. simpl. by rewrite (is_digit_not_space c Hc).
  - unfold all_spaces in Hws. simpl in Hws. apply andb_true_iff in Hws as [Hc Hws].
    rewrite str_app_cons. simpl. rewrite Hc. by apply IH.
Qed.


Lemma page_match_complete (s n : string) :
  page_at s n -> Enhanced.match_here s = Some n.
Proof.
  intros (ws & post & -> & Hws & Hn & Hd & Hpost).
  unfold Enhanced.match_here. rewrite strip_prefix_app.
  rewrite (skip_spaces_app ws n post Hws Hn Hd), (span_digits_app n post Hd Hpost).
  cbv beta iota. by rewrite (eqb_empty_false n Hn).
Qed.


Lemma page_search_unfold (s : string) :
  Enhanced.re_search s =
    match Enhanced.match_here s with
    | Some g => Some g
    | None => match s with
              | EmptyString => None
              | String _ s' => Enhanced.re_search s'
              end
    end.
Proof. destruct s; reflexivity. Qed.







End EmitLemmas.

Module EmitClaims.
Import PyStr HandlerSpec HandlerMore.

Lemma first_progress_at_start (line x y : string) :
  progress_at line x y -> first_progress line x y.
Proof.
  intros H. exists ""%string, line. split; [reflexivity|]. split; [exact H|].
  intros pre' rest' x' y' _ Hlen. simpl in Hlen. lia.
Qed.

Lemma example_line_progress :
  first_progress "Finished converting pages 5/10 time=1.234" "5" "10".
Proof.
  apply first_progress_at_start. exists " time=1.234"%string.
  repeat split; try reflexivity; discriminate.
Qed.


Lemma other_line_no_progress : ~ progress_occurs "Processing page 3".
Proof.
  intros H. apply EmitLemmas.progress_occurs_contains in H. vm_compute in H. discriminate H.
Qed.



Lemma pages_line_no_page : ~ page_occurs (lower "Finished converting pages 5/10").
Proof.
  intros H. destruct (Enhanced.re_search (lower "Finished converting pages 5/10")) eqn:Hs.
  - vm_compute in Hs. discriminate Hs.
  - destruct H as (pre & ws & n & post & Heq & Hws & Hn & Hd).
    assert (Hat : exists n', page_at ("page" ++ ws ++ n ++ post)%string n').
    { destruct (span_digits (n ++ post)%string) as [d r] eqn:Hsp.
      apply StringLemmas.span_digits_eq in Hsp as (Hnp & Hdd & Hr).
      exists d, ws, r. rewrite <- Hnp. repeat split; try assumption.
      intros ->. rewrite StringLemmas.str_app_nil_l in Hnp. subst r.
      destruct n as [|c n]; [contradiction|].
      rewrite StringLemmas.all_digits_cons in Hd. apply andb_true_iff in Hd as [Hc _].
      rewrite StringLemmas.str_app_cons in Hr. simpl in Hr. congruence. }
    destruct Hat as (n' & Hat).
    assert (Hfind : forall pre0 rest0, page_at rest0 n' ->
                      exists g, Enhanced.re_search (pre0 ++ rest0)%string = Some g).
    { intros pre0 rest0 H0. induction pre0 as [|c pre0 (g & IH)].
      - rewrite StringLemmas.str_app_nil_l, EmitLemmas.page_search_unfold,
          (EmitLemmas.page_match_complete _ _ H0). eauto.
      - rewrite StringLemmas.str_app_cons, EmitLemmas.page_search_unfold.
        destruct (Enhanced.match_here _); eauto. }
    destruct (Hfind pre _ Hat) as (g & Hg). rewrite <- Heq in Hg. congruence.
Qed.




(** The handler of src/docling_ui.py on the two lines of the
    counterexample. *)
Example basic_emit_runs :
  let '(h, σ) := basic_handler in
  let '(_, (h1, σ1)) := Basic.emit "Finished converting pages 5/10" h σ in
  let '(_, (h2, σ2)) := Basic.emit "Processing page 3" h1 σ1 in
  σ1 !! Basic.page_progress h1 = Some (Basic.progress_dict 5 10) /\
  σ2 !! Basic.page_progress h2 = Some (Basic.progress_dict 5 10) /\
  Basic.log_queue h2 = ["Finished converting pages 5/10"; "Processing page 3"]%string.
Proof. vm_compute. repeat split. Qed.

End EmitClaims.

(** ** File names *)

Module NameLemmas.
Import PyStr NameSpec StringLemmas.
Local Open Scope string_scope.






Lemma split_no_char (c : ascii) (s : string) : has_char c s = false -> split c s = [s].
Proof.
  induction s as [|a s IH]; [reflexivity|].
  simpl. intros H. apply orb_false_iff in H as [Ha Hs].
  by rewrite Ha, (IH Hs).
Qed.








End NameLemmas.

Module PathLemmas.
Import PyStr PyPath NameSpec StringLemmas NameLemmas.
Local Open Scope string_scope.

Lemma split_app_nosep (c : ascii) (s : string) :
  has_char c s = false ->
  forall p, exists init q,
    split c p = (init ++ [q])%list /\ split c (p ++ s) = (init ++ [(q ++ s)%string])%list.
Proof.
  intros Hs. induction p as [|x p (init & q & Hp & Hps)].
  - exists []%list, "". split; [reflexivity|].
    rewrite !str_app_nil_l. by apply split_no_char.
  - rewrite str_app_cons. simpl. rewrite Hp, Hps.
    destruct (Ascii.eqb x c).
    + by exists ("" :: init)%list, q.
    + destruct init as [|h t]; simpl.
      * by exists []%list, (String x q).
      * by exists (String x h :: t)%list, q.
Qed.

Lemma last_item_app (init : list string) (q : string) : last_item (init ++ [q])%list = q.
Proof. apply List.last_last. Qed.

Lemma is_component_named (a : ascii) (q e : string) :
  is_component (String a q ++ "." ++ e) = true.
Proof.
  rewrite str_app_cons. unfold is_component. simpl.
  destruct (Ascii.eqb a "."); [|reflexivity].
  destruct q; reflexivity.
Qed.

(** The name of a path whose last component has a non-empty part [q]
    before the text [.e]. *)
Lemma name_with_extension (p e : string) :
  has_char "/" e = false ->
  last_item (split "/" p) <> "" ->
  name (p ++ "." ++ e) = last_item (split "/" p) ++ "." ++ e.
Proof.
  intros He Hq.
  destruct (split_app_nosep "/" ("." ++ e)) with (p := p) as (init & q & Hp & Hps).
  { change ("." ++ e) with (String "." e). simpl. exact He. }
  rewrite Hp, last_item_app in Hq |- *.
  unfold name. rewrite Hps, List.filter_app.
  destruct q as [|a q]; [contradiction|].
  simpl. rewrite is_component_named. apply List.last_last.
Qed.

Lemma rfind_absent (c : ascii) (e : string) : has_char c e = false -> rfind c e = (-1)%Z.
Proof.
  induction e as [|a e IH]; [reflexivity|].
  simpl. intros H. apply orb_false_iff in H as [Ha He].
  by rewrite (IH He), Ha.
Qed.

Lemma rfind_app_sep (c : ascii) (q e : string) :
  has_char c e = false -> rfind c (q ++ String c e) = Z.of_nat (String.length q).
Proof.
  intros He. induction q as [|x q IH].
  - rewrite str_app_nil_l. simpl. by rewrite (rfind_absent c e He), Ascii.eqb_refl.
  - rewrite str_app_cons. simpl rfind. rewrite IH.
    replace (0 <=? Z.of_nat (String.length q))%Z with true
      by (symmetry; apply Z.leb_le; lia).
    simpl String.length. lia.
Qed.

Lemma substring_full (s : string) : substring 0 (String.length s) s = s.
Proof. induction s as [|a s IH]; [reflexivity|]. simpl. by rewrite IH. Qed.

Lemma substring_prefix (q s : string) : substring 0 (String.length q) (q ++ s) = q.
Proof.
  induction q as [|a q IH]; [by destruct s|].
  rewrite str_app_cons. simpl. by rewrite IH.
Qed.

Lemma drop_app (q s : string) : drop (String.length q) (q ++ s) = s.
Proof.
  unfold drop. rewrite str_length_app.
  replace (String.length q + String.length s - String.length q)%nat
    with (String.length s) by lia.
  induction q as [|a q IH]; [apply substring_full|].
  rewrite str_app_cons. simpl. exact IH.
Qed.

Lemma take_app (q s : string) : take (String.length q) (q ++ s) = q.
Proof. apply substring_prefix. Qed.

(** [Path.suffix] and [Path.stem] of such a path. *)
Lemma suffix_with_extension (p e : string) :
  has_char "." e = false -> has_char "/" e = false -> e <> "" ->
  last_item (split "/" p) <> "" ->
  suffix (p ++ "." ++ e) = "." ++ e /\
  stem (p ++ "." ++ e) = last_item (split "/" p).
Proof.
  intros Hd Hs He Hq. unfold suffix, stem.
  rewrite (name_with_extension p e Hs Hq).
  set (q := last_item (split "/" p)) in *.
  change ("." ++ e) with (String "." e).
  rewrite (rfind_app_sep "." q e Hd), str_length_app, Nat2Z.id.
  assert (0 < String.length q)%nat by (destruct q; [contradiction|simpl; lia]).
  assert (0 < String.length e)%nat by (destruct e; [contradiction|simpl; lia]).
  replace (0 <? Z.of_nat (String.length q))%Z with true
    by (symmetry; apply Z.ltb_lt; lia).
  replace (Z.of_nat (String.length q)
             <? Z.of_nat (String.length q + String.length (String "." e)) - 1)%Z with true
    by (symmetry; apply Z.ltb_lt; simpl String.length; lia).
  simpl andb. cbv iota. split; [apply drop_app|apply take_app].
Qed.











Lemma enhanced_format_by_extension (p e : string) :
  has_char "." e = false -> has_char "/" e = false -> e <> "" ->
  last_item (split "/" p) <> "" ->
  Enhanced.get_file_format (p ++ "." ++ e) = Enhanced.format_mapping !! ("." ++ lower e).
Proof.
  intros Hd Hs He Hq. unfold Enhanced.get_file_format.
  rewrite (proj1 (suffix_with_extension p e Hd Hs He Hq)). reflexivity.
Qed.

End PathLemmas.

Module NameClaims.
Import PyStr NameSpec Fixtures.
Local Open Scope string_scope.




(** In src/docling_ui.py a name without a dot is its own extension. *)
Example basic_name_without_dot :
  Basic.get_file_format formats "pdf" = Some "pdf" /\
  Basic.get_file_format formats ".pdf" = Some "pdf" /\
  Basic.get_file_format formats "tool.exe" = None.
Proof. repeat split; vm_compute; reflexivity. Qed.

End NameClaims.

(** ** More on the conversion loops *)

Module LoopExtras.
Import LoopSpec More Fixtures.

(** X1.  A file whose format is not recognised never reaches the conversion
    library in src/docling_ui.py: whatever the library would do, the
    iteration appends the fixed "unsupported" record, which carries no
    processing time, and leaves the file system alone. *)
Theorem basic_unsupported_file_is_skipped
    (env : Env) (other : TmpFile -> outcome Document)
    (tbl : list (string * list string)) (fmt : string) (st : Basic.State) (f : UploadedFile) :
  Basic.falsy_format (Basic.get_file_format tbl (name f)) = true ->
  Basic.convert_one env tbl fmt st f
    = Basic.convert_one (mkEnv other (time_at env)) tbl fmt st f /\
  Basic.fs (Basic.convert_one env tbl fmt st f) = Basic.fs st /\
  Basic.results (Basic.convert_one env tbl fmt st f)
    = Basic.results st ++ [Basic.unsupported_record (name f)] /\
  Basic.unsupported_record (name f) !! "processing_time" = None /\
  Basic.unsupported_record (name f) !! "message" = Some (VStr "不支持的文件格式").
Proof.
  intros Hf. unfold Basic.convert_one. simpl. rewrite Hf. repeat split.
Qed.

Lemma basic_unsupported_file_witness :
  Basic.falsy_format (Basic.get_file_format formats (name exe)) = true /\
  Basic.fs (Basic.convert_one env_mixed formats "markdown" (Basic.mkState ∅ [] 1) exe) = ∅.
Proof.
  split; [reflexivity|].
  exact (proj1 (proj2 (basic_unsupported_file_is_skipped env_mixed (fun _ => Raise boom)
                         formats "markdown" (Basic.mkState ∅ [] 1) exe eq_refl))).
Defined.

Lemma basic_success_duration n c fmt p t :
  Basic.success_record n c fmt p t !! "processing_time" = Some (VFloat t).
Proof. reflexivity. Qed.

Lemma basic_error_duration n m t :
  Basic.error_record n m t !! "processing_time" = Some (VFloat t).
Proof. reflexivity. Qed.

Lemma enhanced_success_duration n c e t pg :
  Enhanced.success_record n c e t pg !! "processing_time" = Some (VFloat t).
Proof. reflexivity. Qed.

Lemma enhanced_error_duration n m t p :
  Enhanced.error_record n m t p !! "processing_time" = Some (VFloat t).
Proof. reflexivity. Qed.

Lemma basic_step_duration env tbl fmt st f :
  monotone_clock env ->
  exists r, Basic.results (Basic.convert_one env tbl fmt st f) = Basic.results st ++ [r] /\
            nonneg_duration r.
Proof.
  intros Hm. unfold Basic.convert_one, nonneg_duration. simpl.
  pose proof (Hm (Basic.clock st)) as Hc.
  destruct (Basic.falsy_format _).
  - eexists. split; [reflexivity|]. intros t H. discriminate H.
  - destruct (Basic.attempt _ _ _) as [[doc content]|e]; simpl;
      (eexists; split; [reflexivity|]); intros t H.
    + rewrite basic_success_duration in H. injection H as <-. lia.
    + rewrite basic_error_duration in H. injection H as <-. lia.
Qed.

Lemma enhanced_step_duration env fmt st f :
  monotone_clock env ->
  exists r, Enhanced.conversion_results (Enhanced.convert_one env fmt st f)
              = Enhanced.conversion_results st ++ [r] /\
            nonneg_duration r.
Proof.
  intros Hm. unfold Enhanced.convert_one, nonneg_duration. simpl.
  rewrite lookup_insert_eq.
  pose proof (Hm (Enhanced.clock st)) as Hc.
  destruct (Enhanced.attempt _ _ _) as [[[doc content] ext]|e]; simpl.
  - eexists. split; [reflexivity|]. intros t H.
    rewrite enhanced_success_duration in H. injection H as <-. lia.
  - unfold Enhanced.on_exception, Enhanced.cleanup. simpl. rewrite lookup_insert_eq. simpl.
    eexists. split; [reflexivity|]. intros t H.
    rewrite enhanced_error_duration in H. injection H as <-. lia.
Qed.

(** X2.  If the clock never runs backwards, no record of a run, in either
    program, carries a negative processing time. *)
Theorem processing_times_are_nonnegative
    (env : Env) (tbl : list (string * list string)) (fs0 : gmap positive TmpFile)
    (files : list UploadedFile) (fmt : string) :
  monotone_clock env ->
  Forall nonneg_duration (Basic.results (Basic.convert_documents env tbl fs0 files fmt)) /\
  Forall nonneg_duration
    (Enhanced.conversion_results
       (Enhanced.convert_loop env fmt files (Enhanced.mkState fs0 [] 0 0))).
Proof.
  intros Hm. split.
  - unfold Basic.convert_documents, Basic.convert_loop. simpl.
    destruct (fold_appends (Basic.convert_one env tbl fmt) Basic.results
                (fun _ r => nonneg_duration r)) with (l := files) (st := Basic.mkState fs0 [] 1)
      as (rs & -> & HF).
    + intros st f. by apply basic_step_duration.
    + simpl. clear -HF. induction HF; constructor; assumption.
  - unfold Enhanced.convert_loop.
    destruct (fold_appends (Enhanced.convert_one env fmt) Enhanced.conversion_results
                (fun _ r => nonneg_duration r)) with (l := files)
                                                     (st := Enhanced.mkState fs0 [] 0 0)
      as (rs & -> & HF).
    + intros st f. by apply enhanced_step_duration.
    + simpl. clear -HF. induction HF; constructor; assumption.
Qed.

Lemma processing_times_witness :
  monotone_clock env_mixed /\
  Forall nonneg_duration
    (Basic.results (Basic.convert_documents env_mixed formats ∅ batch "markdown")).
Proof.
  assert (H : monotone_clock env_mixed) by (intros n; simpl; lia).
  split; [exact H|].
  exact (proj1 (processing_times_are_nonnegative env_mixed formats ∅ batch "markdown" H)).
Defined.

Lemma basic_step_fs env tbl fmt st f :
  Basic.fs (Basic.convert_one env tbl fmt st f)
  = if basic_raising env tbl fmt f
    then <[fresh_path (Basic.fs st) := Basic.tmp_file_of f]> (Basic.fs st)
    else Basic.fs st.
Proof.
  unfold Basic.convert_one, basic_raising. simpl.
  destruct (Basic.falsy_format _); [reflexivity|].
  destruct (Basic.attempt _ _ _) as [[doc content]|e]; simpl; [|reflexivity].
  rewrite delete_insert_eq. apply delete_id, EnhancedLoop.fresh_path_free.
Qed.

Lemma basic_loop_fs env tbl fmt files :
  forall st,
    stdpp.base.size (Basic.fs (Basic.convert_loop env tbl fmt files st))
      = stdpp.base.size (Basic.fs st) + length (List.filter (basic_raising env tbl fmt) files) /\
    Basic.fs st ⊆ Basic.fs (Basic.convert_loop env tbl fmt files st).
Proof.
  unfold Basic.convert_loop.
  induction files as [|f files IH]; intros st; simpl.
  - split; [lia|reflexivity].
  - destruct (IH (Basic.convert_one env tbl fmt st f)) as [Hsize Hsub].
    rewrite basic_step_fs in Hsize, Hsub.
    pose proof (EnhancedLoop.fresh_path_free (Basic.fs st)) as Hfree.
    destruct (basic_raising env tbl fmt f); simpl.
    + rewrite map_size_insert_None in Hsize by exact Hfree.
      split; [lia|].
      etrans; [|exact Hsub]. by apply insert_subseteq.
    + split; [lia|exact Hsub].
Qed.

(** X3.  What a run of src/docling_ui.py does to the temporary directory: each
    attempted conversion that raises leaves exactly one file behind, and
    nothing that was there before is removed or changed. *)
Theorem basic_run_leaves_one_file_per_failure
    (env : Env) (tbl : list (string * list string)) (fs0 : gmap positive TmpFile)
    (files : list UploadedFile) (fmt : string) :
  stdpp.base.size (Basic.fs (Basic.convert_documents env tbl fs0 files fmt))
    = stdpp.base.size fs0 + length (List.filter (basic_raising env tbl fmt) files) /\
  fs0 ⊆ Basic.fs (Basic.convert_documents env tbl fs0 files fmt).
Proof.
  unfold Basic.convert_documents. simpl.
  apply (basic_loop_fs env tbl fmt files (Basic.mkState fs0 [] 1)).
Qed.


(** X5.  The counter [success_count] of the enhanced loop is the number of
    success records, and there are never more of them than files. *)
Theorem enhanced_counter_counts_successes
    (env : Env) (fs0 : gmap positive TmpFile) (files : list UploadedFile) (fmt : string) :
  let st := Enhanced.convert_loop env fmt files (Enhanced.mkState fs0 [] 0 0) in
  Enhanced.success_count st
    = length (List.filter enhanced_succeeded (Enhanced.conversion_results st)) /\
  Enhanced.success_count st <= length files.
Proof.
  simpl. assert (H := Shapes.enhanced_count env fmt files (Enhanced.mkState fs0 [] 0 0) eq_refl).
  split; [exact H|]. rewrite H.
  destruct (EnhancedLoop.enh_convert_loop_results env fmt files (Enhanced.mkState fs0 [] 0 0))
    as (rs & Hrs & HF).
  simpl in Hrs. rewrite Hrs, (Forall2_length _ _ _ HF).
  apply List.filter_length_le.
Qed.

End LoopExtras.

(** ** More on the log handlers *)

Module HandlerExtras.
Import PyStr HandlerSpec HandlerMore More.

Lemma basic_emit_queue line h σ :
  Basic.log_queue (fst (snd (Basic.emit line h σ))) = Basic.log_queue h ++ [line].
Proof.
  unfold Basic.emit. destruct (contains _ line); [|reflexivity].
  destruct (Basic.re_search line) as [[g1 g2]|]; [|reflexivity].
  destruct (py_int g1); [|reflexivity]. destruct (py_int g2); reflexivity.
Qed.

Lemma basic_emit_all_queue lines :
  forall hσ, Basic.log_queue (fst (basic_emit_all lines hσ))
             = Basic.log_queue (fst hσ) ++ lines.
Proof.
  unfold basic_emit_all. induction lines as [|l lines IH]; intros hσ; simpl.
  - by rewrite app_nil_r.
  - rewrite IH, basic_emit_queue, <- app_assoc. reflexivity.
Qed.

(** X6.  The queue of the handler of src/docling_ui.py is first in, first out,
    and [get_logs] drains it: after any records, [get_logs] returns what
    was queued before followed by those records, in order; it leaves the
    page progress alone; a second call returns the empty list. *)
Theorem basic_get_logs_drains_in_order
    (lines : list string) (hσ : Basic.LogCapture * gmap positive (gmap string Z)) :
  let h' := fst (basic_emit_all lines hσ) in
  fst (Basic.get_logs h') = Basic.log_queue (fst hσ) ++ lines /\
  Basic.page_progress (snd (Basic.get_logs h')) = Basic.page_progress h' /\
  fst (Basic.get_logs (snd (Basic.get_logs h'))) = [].
Proof.
  simpl. split; [apply basic_emit_all_queue|]. split; reflexivity.
Qed.

Lemma basic_emit_all_app l1 l2 hσ :
  basic_emit_all (l1 ++ l2) hσ = basic_emit_all l2 (basic_emit_all l1 hσ).
Proof. unfold basic_emit_all. apply fold_left_app. Qed.

Lemma basic_emit_all_cons l lines hσ :
  basic_emit_all (l :: lines) hσ
  = basic_emit_all lines (snd (Basic.emit l (fst hσ) (snd hσ))).
Proof. reflexivity. Qed.

Lemma basic_emit_all_no_match lines :
  Forall (fun l => ~ progress_occurs l) lines ->
  forall hσ,
    Basic.page_progress (fst (basic_emit_all lines hσ)) = Basic.page_progress (fst hσ) /\
    snd (basic_emit_all lines hσ) = snd hσ.
Proof.
  induction 1 as [|l lines Hl _ IH]; intros hσ; [done|].
  rewrite basic_emit_all_cons.
  destruct (IH (snd (Basic.emit l (fst hσ) (snd hσ)))) as [-> ->].
  rewrite (EmitLemmas.basic_emit_no_match l (fst hσ) (snd hσ)
             (EmitLemmas.basic_no_progress_no_match l Hl)).
  split; reflexivity.
Qed.

(** X7.  The last progress line wins: after a sequence of records of ASCII
    text, the page progress is the [X/Y] of the last record in which the
    pattern occurs (its numbers having at most 4300 digits), whatever
    came before it and whatever pattern-free records follow. *)
Theorem basic_last_progress_line_wins
    (before after : list string) (line x y : string)
    (hσ : Basic.LogCapture * gmap positive (gmap string Z)) :
  Forall (fun l => is_ascii l = true) (before ++ line :: after) ->
  first_progress line x y ->
  within_limit x -> within_limit y ->
  Forall (fun l => ~ progress_occurs l) after ->
  snd (basic_emit_all (before ++ line :: after) hσ)
    !! Basic.page_progress (fst (basic_emit_all (before ++ line :: after) hσ))
  = Some (Basic.progress_dict (int_of_digits x) (int_of_digits y)).
Proof.
  intros _ (pre & rest & -> & Hat & Hmin) Hx Hy Hafter.
  rewrite basic_emit_all_app, basic_emit_all_cons.
  destruct (basic_emit_all_no_match after Hafter
              (snd (Basic.emit (pre ++ rest)%string (fst (basic_emit_all before hσ))
                      (snd (basic_emit_all before hσ))))) as [-> ->].
  rewrite (EmitLemmas.basic_emit_match (pre ++ rest)%string _ _ x y
             (EmitLemmas.progress_at_contains pre rest x y Hat)
             (EmitLemmas.re_search_first rest x y Hat pre Hmin) Hx Hy).
  apply lookup_insert_eq.
Qed.

Lemma basic_last_progress_witness :
  first_progress "Finished converting pages 5/10 time=1.234" "5" "10" /\
  snd (basic_emit_all (["Finished converting pages 1/10"%string]
                         ++ "Finished converting pages 5/10 time=1.234"%string
                         :: ["Processing page 3"%string]) basic_handler)
    !! Basic.page_progress
         (fst (basic_emit_all (["Finished converting pages 1/10"%string]
                                 ++ "Finished converting pages 5/10 time=1.234"%string
                                 :: ["Processing page 3"%string]) basic_handler))
  = Some (Basic.progress_dict 5 10).
Proof.
  split; [exact EmitClaims.example_line_progress|].
  apply (basic_last_progress_line_wins ["Finished converting pages 1/10"%string]
           ["Processing page 3"%string] _ "5" "10" basic_handler).
  - repeat constructor.
  - exact EmitClaims.example_line_progress.
  - vm_compute. lia.
  - vm_compute. lia.
  - constructor; [exact EmitClaims.other_line_no_progress|constructor].
Defined.

Lemma int_of_digits_nonneg (ds : string) : (0 <= int_of_digits ds)%Z.
Proof.
  unfold int_of_digits.
  assert (H : forall l acc, (0 <= acc)%Z ->
                (0 <= fold_left (fun acc c => 10 * acc + digit_val c) l acc)%Z).
  { induction l as [|c l IH]; intros acc Hacc; simpl; [exact Hacc|].
    apply IH. unfold digit_val. lia. }
  apply H. lia.
Qed.

Lemma py_int_nonneg (ds : string) (v : Z) : py_int ds = Some v -> (0 <= v)%Z.
Proof.
  unfold py_int. destruct (_ <? _)%nat; [discriminate|].
  intros [= <-]. apply int_of_digits_nonneg.
Qed.

Lemma basic_emit_progress_ok line hσ :
  progress_ok hσ -> progress_ok (snd (Basic.emit line (fst hσ) (snd hσ))).
Proof.
  intros Hok. unfold Basic.emit.
  destruct (contains _ line); [|exact Hok].
  destruct (Basic.re_search line) as [[g1 g2]|]; [|exact Hok].
  destruct (py_int g1) as [c|] eqn:H1; [|exact Hok].
  destruct (py_int g2) as [t|] eqn:H2; [|exact Hok].
  exists (Basic.progress_dict c t), c, t.
  simpl. rewrite lookup_insert_eq.
  repeat split; try reflexivity; [by apply (py_int_nonneg g1)|by apply (py_int_nonneg g2)].
Qed.

(** X8.  Whatever records of ASCII text the handler of src/docling_ui.py
    receives after its creation, and whether or not an [emit] raises, its
    page-progress dictionary has the keys [current] and [total], with
    values that are not negative: reading [progress["total"]] never
    fails. *)
Theorem basic_page_progress_always_well_formed (lines : list string) :
  Forall (fun l => is_ascii l = true) lines ->
  progress_ok (basic_emit_all lines basic_handler).
Proof.
  intros _.
  assert (H : forall hσ, progress_ok hσ -> progress_ok (basic_emit_all lines hσ)).
  { induction lines as [|l lines IH]; intros hσ Hok; [exact Hok|].
    rewrite basic_emit_all_cons. apply IH. by apply basic_emit_progress_ok. }
  apply H. exists (Basic.progress_dict 0 0), 0%Z, 0%Z.
  repeat split; try reflexivity; lia.
Qed.

Lemma basic_page_progress_witness :
  progress_ok (basic_emit_all ["Finished converting pages 5/10"%string;
                               "Processing page 3"%string] basic_handler).
Proof.
  apply (basic_page_progress_always_well_formed
           ["Finished converting pages 5/10"%string; "Processing page 3"%string]).
  repeat constructor.
Defined.

End HandlerExtras.

(** ** The log handler of the enhanced program over many records *)

Module EnhancedHandlerExtras.
Import PyStr HandlerSpec HandlerMore More.

Lemma enhanced_emit_step line h σ ls d :
  enhanced_holds h σ ls d ->
  exists c σ' d',
    Enhanced.emit line h σ = Some (c, σ') /\
    enhanced_holds h σ' (ls ++ [line]) d' /\
    (values_logged d ls -> values_logged d' (ls ++ [line])) /\
    dom d ⊆ dom d' /\
    (forall k, k <> Enhanced.logs h -> k <> Enhanced.page_progress h -> σ' !! k = σ !! k).
Proof.
  intros (Hne & Hl & Hp). unfold Enhanced.emit. rewrite Hl.
  assert (Hkeep : values_logged d ls -> values_logged d (ls ++ [line])).
  { intros Hv n v Hn. apply elem_of_app. left. by apply (Hv n). }
  assert (Hplain : forall c : Completion, exists c' σ' d',
    Some (c, <[Enhanced.logs h := Enhanced.OList (ls ++ [line])]> σ) = Some (c', σ') /\
    enhanced_holds h σ' (ls ++ [line]) d' /\
    (values_logged d ls -> values_logged d' (ls ++ [line])) /\
    dom d ⊆ dom d' /\
    (forall k, k <> Enhanced.logs h -> k <> Enhanced.page_progress h -> σ' !! k = σ !! k)).
  { intros c. eexists c, _, d. split; [reflexivity|].
    split; [|split; [exact Hkeep|split; [done|]]].
    - split; [exact Hne|]. split; [apply lookup_insert_eq|].
      rewrite lookup_insert_ne; [exact Hp|exact Hne].
    - intros k Hk _. by apply lookup_insert_ne. }
  destruct (Enhanced.mentions_page_work (lower line)); [|apply Hplain].
  destruct (Enhanced.re_search (lower line)) as [g|]; [|apply Hplain].
  destruct (py_int g) as [page_num|]; [|apply Hplain].
  rewrite lookup_insert_ne; [|exact Hne]. rewrite Hp.
  eexists Returns, _, (<[page_num := line]> d). split; [reflexivity|].
  split; [|split; [|split]].
  - split; [exact Hne|]. split; [|apply lookup_insert_eq].
    rewrite lookup_insert_ne; [apply lookup_insert_eq|by apply not_eq_sym].
  - intros Hv n v Hn. destruct (decide (n = page_num)) as [->|Hd].
    + rewrite lookup_insert_eq in Hn. injection Hn as <-.
      apply elem_of_app. right. apply list_elem_of_singleton. reflexivity.
    + rewrite lookup_insert_ne in Hn; [|by apply not_eq_sym]. by apply (Hkeep Hv n).
  - apply dom_insert_subseteq.
  - intros k Hk1 Hk2. rewrite lookup_insert_ne; [|by apply not_eq_sym].
    apply lookup_insert_ne. by apply not_eq_sym.
Qed.

(** X9.  From a handler whose two attributes are in place, any sequence of
    records of ASCII text leaves the handler in place, whether or not an
    [emit] raises the [ValueError] of [int]: [logs] grows by exactly these
    records, in order; the page dictionary keeps its keys and every line
    it stores is one of the logged lines; no other object of the store is
    touched. *)
Theorem enhanced_emits_accumulate
    (lines : list string) (h : Enhanced.LogCapture) (σ : gmap positive Enhanced.Obj)
    (ls : list string) (d : gmap Z string) :
  Forall (fun l => is_ascii l = true) lines ->
  enhanced_holds h σ ls d ->
  values_logged d ls ->
  exists σ' d',
    enhanced_emit_all lines h σ = Some σ' /\
    enhanced_holds h σ' (ls ++ lines) d' /\
    values_logged d' (ls ++ lines) /\
    dom d ⊆ dom d' /\
    (forall k, k <> Enhanced.logs h -> k <> Enhanced.page_progress h -> σ' !! k = σ !! k).
Proof.
  intros _. unfold enhanced_emit_all.
  revert σ ls d. induction lines as [|l lines IH]; intros σ ls d Hh Hv.
  - exists σ, d. rewrite app_nil_r. simpl. done.
  - destruct (enhanced_emit_step l h σ ls d Hh)
      as (c & σ1 & d1 & He & Hh1 & Hv1 & Hd1 & Hf1).
    destruct (IH σ1 (ls ++ [l]) d1 Hh1 (Hv1 Hv)) as (σ' & d' & He' & Hh' & Hv' & Hd' & Hf').
    exists σ', d'. simpl. rewrite He, <- app_assoc in *. simpl in *.
    split; [exact He'|]. split; [exact Hh'|]. split; [exact Hv'|].
    split; [set_solver|]. intros k Hk1 Hk2. rewrite Hf' by done. by apply Hf1.
Qed.

Lemma enhanced_handler_holds :
  enhanced_holds (fst enhanced_handler) (snd enhanced_handler) [] ∅.
Proof. split; [|split]; vm_compute; [discriminate|reflexivity|reflexivity]. Defined.

Lemma enhanced_emits_witness :
  exists σ' d',
    enhanced_emit_all ["Processing page 3"%string; "done"%string]
      (fst enhanced_handler) (snd enhanced_handler) = Some σ' /\
    enhanced_holds (fst enhanced_handler) σ'
      ([] ++ ["Processing page 3"%string; "done"%string]) d' /\
    values_logged d' ([] ++ ["Processing page 3"%string; "done"%string]) /\
    dom (∅ : gmap Z string) ⊆ dom d' /\
    (forall k, k <> Enhanced.logs (fst enhanced_handler) ->
               k <> Enhanced.page_progress (fst enhanced_handler) ->
               σ' !! k = snd enhanced_handler !! k).
Proof.
  apply (enhanced_emits_accumulate ["Processing page 3"%string; "done"%string]
           (fst enhanced_handler) (snd enhanced_handler) [] ∅).
  - repeat constructor.
  - exact enhanced_handler_holds.
  - intros n v Hn. rewrite lookup_empty in Hn. discriminate Hn.
Defined.

(** X10.  [clear_logs] empties both attributes in place, and a list handed out
    by [get_logs] before is not affected by it: after [get_logs] and then
    [clear_logs] the earlier copy still holds the old lines, while the
    handler holds none and the next [get_logs] returns the empty list. *)
Theorem enhanced_clear_logs_spares_copies
    (h : Enhanced.LogCapture) (σ : gmap positive Enhanced.Obj)
    (ls : list string) (d : gmap Z string) :
  enhanced_holds h σ ls d ->
  exists l σ1,
    Enhanced.get_logs h σ = Some (l, σ1) /\
    enhanced_holds h (Enhanced.clear_logs h σ1) [] ∅ /\
    Enhanced.clear_logs h σ1 !! l = Some (Enhanced.OList ls) /\
    exists l' σ3,
      Enhanced.get_logs h (Enhanced.clear_logs h σ1) = Some (l', σ3) /\
      σ3 !! l' = Some (Enhanced.OList []).
Proof.
  intros (Hne & Hl & Hp).
  assert (Hfresh : forall k, is_Some (σ !! k) -> k <> fresh (dom σ)).
  { intros k Hk ->. apply elem_of_dom in Hk. by apply is_fresh in Hk. }
  assert (H1 : Enhanced.logs h <> fresh (dom σ)) by (apply Hfresh; eauto).
  assert (H2 : Enhanced.page_progress h <> fresh (dom σ)) by (apply Hfresh; eauto).
  exists (fresh (dom σ)), (<[fresh (dom σ) := Enhanced.OList ls]> σ).
  unfold Enhanced.get_logs at 1. rewrite Hl. split; [reflexivity|].
  assert (Hc : Enhanced.clear_logs h (<[fresh (dom σ) := Enhanced.OList ls]> σ)
               !! Enhanced.logs h = Some (Enhanced.OList [])).
  { unfold Enhanced.clear_logs.
    rewrite lookup_insert_ne; [apply lookup_insert_eq|by apply not_eq_sym]. }
  split; [|split].
  - split; [exact Hne|]. split; [exact Hc|]. apply lookup_insert_eq.
  - unfold Enhanced.clear_logs. rewrite !lookup_insert_ne by done. apply lookup_insert_eq.
  - unfold Enhanced.get_logs. rewrite Hc. eexists _, _. split; [reflexivity|].
    apply lookup_insert_eq.
Qed.

Lemma logged_handler_holds :
  enhanced_holds (fst logged_handler) (snd logged_handler)
    ["Processing page 3"%string] {[ 3%Z := "Processing page 3"%string ]}.
Proof. split; [|split]; vm_compute; [discriminate|reflexivity|reflexivity]. Defined.

Lemma enhanced_clear_logs_witness :
  exists l σ1,
    Enhanced.get_logs (fst logged_handler) (snd logged_handler) = Some (l, σ1) /\
    enhanced_holds (fst logged_handler)
      (Enhanced.clear_logs (fst logged_handler) σ1) [] ∅ /\
    Enhanced.clear_logs (fst logged_handler) σ1 !! l
      = Some (Enhanced.OList ["Processing page 3"%string]) /\
    exists l' σ3,
      Enhanced.get_logs (fst logged_handler)
        (Enhanced.clear_logs (fst logged_handler) σ1) = Some (l', σ3) /\
      σ3 !! l' = Some (Enhanced.OList []).
Proof.
  exact (enhanced_clear_logs_spares_copies (fst logged_handler) (snd logged_handler)
           ["Processing page 3"%string] {[ 3%Z := "Processing page 3"%string ]}
           logged_handler_holds).
Defined.

End EnhancedHandlerExtras.

(** ** Previews, recent log lines, metrics and the logging set-up *)

Module ViewExtras.
Import PyStr LoopSpec More.

Lemma substring_split (n : nat) : forall s : string,
  (n <= String.length s)%nat ->
  s = (substring 0 n s ++ substring n (String.length s - n) s)%string /\
  String.length (substring 0 n s) = n.
Proof.
  induction n as [|n IH]; intros s Hn.
  - rewrite Nat.sub_0_r, PathLemmas.substring_full.
    destruct s; split; reflexivity.
  - destruct s as [|a s]; [simpl in Hn; lia|].
    simpl in Hn. destruct (IH s ltac:(lia)) as [Hs Hl].
    simpl. rewrite StringLemmas.str_app_cons, <- Hs, Hl. split; reflexivity.
Qed.

(** X11.  The preview of a converted text of ASCII characters never has more
    than 1003 characters: a text of at most 1000 characters is shown
    whole; of a longer one the first 1000 characters are shown, followed
    by three dots. *)
Theorem preview_shows_at_most_1000_characters (content : string) :
  is_ascii content = true ->
  (String.length (preview_content content) <= 1003)%nat /\
  (((String.length content <= 1000)%nat /\ preview_content content = content) \/
   (exists head rest,
      content = (head ++ rest)%string /\
      String.length head = 1000%nat /\ (0 < String.length rest)%nat /\
      preview_content content = (head ++ "...")%string)).
Proof.
  intros _. unfold preview_content, take.
  destruct (Nat.ltb_spec 1000 (String.length content)) as [Hlong|Hshort].
  - destruct (substring_split 1000 content ltac:(lia)) as [Hs Hl].
    split.
    + rewrite StringLemmas.str_length_app, Hl. simpl String.length. lia.
    + right. exists (substring 0 1000 content),
                    (substring 1000 (String.length content - 1000) content).
      split; [exact Hs|]. split; [exact Hl|]. split; [|reflexivity].
      apply (f_equal String.length) in Hs.
      rewrite StringLemmas.str_length_app, Hl in Hs. lia.
  - split; [lia|]. left. split; [exact Hshort|reflexivity].
Qed.

Lemma preview_witness :
  is_ascii long_text = true /\
  (String.length (preview_content long_text) <= 1003)%nat /\
  (((String.length long_text <= 1000)%nat /\ preview_content long_text = long_text) \/
   (exists head rest,
      long_text = (head ++ rest)%string /\
      String.length head = 1000%nat /\ (0 < String.length rest)%nat /\
      preview_content long_text = (head ++ "...")%string)).
Proof.
  assert (H : is_ascii long_text = true) by (vm_compute; reflexivity).
  split; [exact H|]. exact (preview_shows_at_most_1000_characters long_text H).
Defined.

(** X12.  The log lines shown while a file is processed are the last five of
    the handler's lines, in order, or all of them when there are fewer. *)
Theorem recent_logs_are_the_last_five (logs : list string) :
  exists older,
    logs = older ++ recent_logs logs /\
    length (recent_logs logs) = Nat.min 5 (length logs).
Proof.
  unfold recent_logs. destruct (Nat.ltb_spec 5 (length logs)) as [Hlong|Hshort].
  - exists (List.firstn (length logs - 5) logs). split.
    + symmetry. apply List.firstn_skipn.
    + rewrite List.length_skipn. lia.
  - exists []. split; [reflexivity|lia].
Qed.

Lemma count_success_cases (results : list (gmap string Value)) :
  (BasicDisplay.count_success results = Some (length (List.filter basic_succeeded results)) /\
   Forall (fun r => is_Some (r !! "status")) results) \/
  (BasicDisplay.count_success results = None /\
   Exists (fun r => r !! "status" = None) results).
Proof.
  induction results as [|r rs IH]; [left; split; [reflexivity|constructor]|].
  simpl. unfold BasicDisplay.is_success, basic_succeeded.
  destruct (r !! "status") as [v|] eqn:Hr.
  - destruct IH as [[-> Hall]|[-> Hex]].
    + left. split; [|constructor; [rewrite Hr; eauto|exact Hall]].
      destruct (decide (v = VStr "success")) as [->|Hv].
      * rewrite !bool_decide_eq_true_2 by reflexivity. reflexivity.
      * rewrite !bool_decide_eq_false_2; [reflexivity| |exact Hv].
        intros H. injection H as ->. by apply Hv.
    + right. split; [reflexivity|by apply Exists_cons_tl].
  - right. split; [reflexivity|by apply Exists_cons_hd].
Qed.

(** X13.  The three metrics of the result page: when every record has a status
    they are the number of records, the number of records whose status is
    [success], and a non-negative number of failures, and they add up;
    the display fails with a [KeyError] exactly when some record has no
    status. *)
Theorem metrics_add_up_or_fail (results : list (gmap string Value)) :
  (exists total success_count error_count,
     metrics results = Some (total, success_count, error_count) /\
     total = Z.of_nat (length results) /\
     success_count = Z.of_nat (length (List.filter basic_succeeded results)) /\
     error_count
       = Z.of_nat (length (List.filter (fun r => negb (basic_succeeded r)) results)) /\
     (total = success_count + error_count)%Z /\
     Forall (fun r => is_Some (r !! "status")) results) \/
  (metrics results = None /\ Exists (fun r => r !! "status" = None) results).
Proof.
  unfold metrics. destruct (count_success_cases results) as [[-> Hall]|[-> Hex]].
  - left. eexists _, _, _. split; [reflexivity|].
    assert (Hlen : length results
                   = (length (List.filter basic_succeeded results)
                      + length (List.filter (fun r => negb (basic_succeeded r)) results))%nat).
    { clear Hall. induction results as [|r rs IH]; [reflexivity|].
      simpl. destruct (basic_succeeded r); simpl; lia. }
    repeat split; try lia. exact Hall.
  - right. split; [reflexivity|exact Hex].
Qed.

(** X14.  [setup_logging] of src/docling_ui.py can be called at every run of the
    script: it sets the level to DEBUG, leaves the handler installed,
    keeps the other handlers as they are, and a second call changes
    nothing, so the handler is never installed twice by it. *)
Theorem basic_setup_logging_is_idempotent (log_capture : positive) (lg : Logger) :
  let lg' := basic_setup_logging log_capture lg in
  level lg' = DEBUG /\
  log_capture ∈ handlers lg' /\
  List.filter (fun x => negb (bool_decide (x = log_capture))) (handlers lg')
    = List.filter (fun x => negb (bool_decide (x = log_capture))) (handlers lg) /\
  length (handlers lg') <= S (length (handlers lg)) /\
  basic_setup_logging log_capture lg' = lg'.
Proof.
  unfold basic_setup_logging, addHandler, setLevel. simpl.
  destruct (decide (log_capture ∈ handlers lg)) as [Hin|Hout].
  - rewrite !bool_decide_eq_true_2 by exact Hin. simpl.
    rewrite ?bool_decide_eq_true_2 by exact Hin. repeat split; try done. lia.
  - rewrite !bool_decide_eq_false_2 by exact Hout. simpl.
    assert (Hin' : log_capture ∈ handlers lg ++ [log_capture]).
    { apply elem_of_app. right. by apply list_elem_of_singleton. }
    rewrite ?bool_decide_eq_true_2 by exact Hin'.
    split; [reflexivity|]. split; [exact Hin'|]. split; [|split; [|reflexivity]].
    + rewrite List.filter_app. simpl.
      rewrite bool_decide_eq_true_2 by reflexivity. simpl. apply app_nil_r.
    + rewrite length_app. simpl. lia.
Qed.

Lemma remove_all_handlers (l : list positive) (lv : Level) :
  fold_left (fun lg h => removeHandler h lg) l (mkLogger lv l) = mkLogger lv [].
Proof.
  induction l as [|x l IH]; [reflexivity|].
  simpl fold_left. unfold removeHandler at 2. cbn [handlers level remove_first].
  rewrite bool_decide_eq_true_2 by reflexivity. exact IH.
Qed.

(** X15.  [setup_logging] of the enhanced program leaves the capturing handler
    as the only handler of the root logger, whatever handlers were
    installed before (also when it was among them, also when a handler was
    installed twice), and sets both loggers to INFO; the handlers of the
    [docling] logger are not touched. *)
Theorem enhanced_setup_logging_replaces_root_handlers
    (log_capture : positive) (root docling_logger : Logger) :
  enhanced_setup_logging log_capture root docling_logger
    = (mkLogger INFO [log_capture], mkLogger INFO (handlers docling_logger)).
Proof.
  unfold enhanced_setup_logging. destruct root as [lv hs]. cbn [handlers].
  rewrite remove_all_handlers. reflexivity.
Qed.

End ViewExtras.

(** ** File names: download names, temporary suffixes, accepted types *)

Module NameExtras.
Import PyStr NameSpec More TableSpec Fixtures.
Local Open Scope string_scope.

(** X16.  The download and archive names of src/docling_ui.py replace the text
    after the last dot of the upload's name by the extension of the output
    format and keep everything before it, earlier dots included; a name
    without a dot gets the extension appended. *)
Theorem basic_output_name_replaces_last_extension (q e ext : string) :
  has_char "." e = false ->
  BasicDisplay.output_name (q ++ "." ++ e) ext = q ++ "." ++ ext /\
  BasicDisplay.output_name e ext = e ++ "." ++ ext.
Proof.
  intros He. unfold BasicDisplay.output_name, rsplit1. split.
  - change ("." ++ e) with (String "." e).
    rewrite (PathLemmas.rfind_app_sep "." q e He), Nat2Z.id.
    destruct (Z.leb_spec 0 (Z.of_nat (String.length q))) as [_|Hneg]; [|lia].
    unfold first_item. simpl List.hd. by rewrite PathLemmas.take_app.
  - rewrite (PathLemmas.rfind_absent "." e He). reflexivity.
Qed.

Lemma basic_output_name_witness :
  has_char "." "pdf" = false /\
  BasicDisplay.output_name "report.v2.pdf" "md" = "report.v2.md".
Proof.
  split; [reflexivity|].
  exact (proj1 (basic_output_name_replaces_last_extension "report.v2" "pdf" "md" eq_refl)).
Defined.

(** X17.  The download and archive names of the enhanced program are the last
    component of the upload's name without its extension, followed by the
    extension of the output: directories of the name are dropped. *)
Theorem enhanced_output_name_replaces_extension (p e extension : string) :
  has_char "." e = false -> has_char "/" e = false -> e <> "" ->
  last_item (split "/" p) <> "" ->
  EnhancedDisplay.output_name (p ++ "." ++ e) extension
    = last_item (split "/" p) ++ "." ++ extension.
Proof.
  intros Hd Hs He Hq. unfold EnhancedDisplay.output_name.
  by rewrite (proj2 (PathLemmas.suffix_with_extension p e Hd Hs He Hq)).
Qed.

Lemma enhanced_output_name_witness :
  EnhancedDisplay.output_name "docs/report.v2.pdf" "md" = "report.v2.md".
Proof.
  apply (enhanced_output_name_replaces_extension "docs/report.v2" "pdf" "md");
    [reflexivity|reflexivity|discriminate|discriminate].
Defined.







End NameExtras.

(** ** The uploader, the upload table and the batch download *)

Module PageExtras.
Import PyStr NameSpec LoopSpec More TableSpec Fixtures.
Local Open Scope string_scope.

Lemma accepted_type_plain (x : string) :
  In x accepted_types -> has_char "." x = false /\ has_char "/" x = false /\ x <> "".
Proof.
  unfold accepted_types. simpl.
  intros H. repeat (destruct H as [<-|H]; [repeat split; discriminate|]). destruct H.
Qed.

Lemma accepted_type_mapped (x : string) :
  In x accepted_types <-> is_Some (Enhanced.format_mapping !! ("." ++ x)).
Proof.
  split.
  - unfold accepted_types. simpl.
    intros H. repeat (destruct H as [<-|H]; [vm_compute; eauto|]). destruct H.
  - intros [v Hv]. unfold Enhanced.format_mapping in Hv.
    apply elem_of_list_to_map_2 in Hv.
    change ("." ++ x) with (String "." x) in Hv.
    unfold accepted_types.
    repeat (apply elem_of_cons in Hv as [Hv|Hv];
            [injection Hv as -> _; simpl; tauto|]).
    by apply elem_of_nil in Hv.
Qed.

(** X19.  The uploader of the enhanced program and its format table agree: a
    file name with an extension gets a format from [get_file_format]
    exactly when the extension, in lower case, is one of the types the
    uploader accepts; so no accepted upload is shown with an unknown
    format, whatever the case of its extension. *)
Theorem enhanced_accepted_types_have_a_format (p e : string) :
  has_char "." e = false -> has_char "/" e = false -> e <> "" ->
  last_item (split "/" p) <> "" ->
  (is_Some (Enhanced.get_file_format (p ++ "." ++ e)) <-> In (lower e) accepted_types).
Proof.
  intros Hd Hs He Hq.
  rewrite (PathLemmas.enhanced_format_by_extension p e Hd Hs He Hq).
  symmetry. apply accepted_type_mapped.
Qed.

Lemma enhanced_accepted_types_witness :
  is_Some (Enhanced.get_file_format ("scans/Page" ++ "." ++ "JPEG")) <->
  In (lower "JPEG") accepted_types.
Proof.
  apply (enhanced_accepted_types_have_a_format "scans/Page" "JPEG");
    [reflexivity|reflexivity|discriminate|discriminate].
Defined.




End PageExtras.

(** ** When the batch download is offered *)

Module BatchExtras.
Import LoopSpec More.

(** X21.  The result page of src/docling_ui.py never fails on the records of a
    run and shows one item per uploaded file; the batch download is
    offered only when at least two files were converted, and then the
    archive has one member per converted file. *)
Theorem basic_batch_download_needs_two_successes
    (env : Env) (tbl : list (string * list string)) (fs0 : gmap positive TmpFile)
    (files : list UploadedFile) (fmt : string) :
  let rs := Basic.results (Basic.convert_documents env tbl fs0 files fmt) in
  exists page,
    BasicDisplay.display_results rs = Some page /\
    length (BasicDisplay.shown page) = length files /\
    ((length (List.filter basic_succeeded rs) <= 1 /\
      BasicDisplay.batch_download page = None) \/
     (2 <= length (List.filter basic_succeeded rs) /\
      exists z, BasicDisplay.batch_download page = Some z /\
                length z = length (List.filter basic_succeeded rs))).
Proof.
  intros rs.
  pose proof (Shapes.basic_results_shape env tbl fs0 files fmt) as Hs. fold rs in Hs.
  pose proof (BasicLoop.basic_convert_documents_results env tbl fs0 files fmt) as Hr.
  fold rs in Hr. apply Forall2_length in Hr.
  destruct (ArchiveLemmas.basic_zip_members_total fmt rs Hs) as (z & Hz).
  pose proof (ArchiveLemmas.basic_zip_members_spec rs z Hz) as Hm.
  apply Forall2_length in Hm.
  destruct (DisplayLemmas.basic_show_results_shaped fmt rs Hs 0) as (items & Hitems & HF).
  apply Forall2_length in HF.
  unfold BasicDisplay.display_results.
  rewrite (DisplayLemmas.basic_count_shaped fmt rs Hs), Hitems, Hz.
  eexists. split; [reflexivity|]. cbn [BasicDisplay.shown BasicDisplay.batch_download].
  split; [lia|].
  destruct (Nat.ltb_spec 1 (length (List.filter basic_succeeded rs))) as [Hlt|Hle].
  - right. split; [lia|]. exists z. split; [reflexivity|lia].
  - left. split; [exact Hle|reflexivity].
Qed.

(** X22.  [convert_files] of the enhanced program returns at once on an empty
    upload list; on any other it completes, shows one item per uploaded
    file, and offers the batch download only when at least two files were
    converted, the archive then having one member per converted file. *)
Theorem enhanced_batch_download_needs_two_successes
    (env : Env) (fs0 : gmap positive TmpFile) (ts : Z)
    (files : list UploadedFile) (fmt : string) :
  (files = [] /\ EnhancedDisplay.convert_files env fs0 ts files fmt = None) \/
  (exists out,
     EnhancedDisplay.convert_files env fs0 ts files fmt = Some out /\
     EnhancedDisplay.final out
       = Enhanced.convert_loop env fmt files (Enhanced.mkState fs0 [] 0 0) /\
     length (EnhancedDisplay.shown out) = length files /\
     ((Enhanced.success_count (EnhancedDisplay.final out) <= 1 /\
       EnhancedDisplay.batch_download out = None) \/
      (2 <= Enhanced.success_count (EnhancedDisplay.final out) /\
       exists z, EnhancedDisplay.batch_download out = Some z /\
                 length z = Enhanced.success_count (EnhancedDisplay.final out)))).
Proof.
  destruct files as [|f files]; [left; split; reflexivity|right].
  unfold EnhancedDisplay.convert_files.
  set (st := Enhanced.convert_loop env fmt (f :: files) (Enhanced.mkState fs0 [] 0 0)).
  pose proof (Shapes.enhanced_results_shape env fmt (f :: files) fs0) as Hs. fold st in Hs.
  destruct (EnhancedLoop.enh_convert_loop_results env fmt (f :: files)
              (Enhanced.mkState fs0 [] 0 0)) as (rs & Hrs & Hr).
  fold st in Hrs. simpl in Hrs. apply Forall2_length in Hr.
  destruct (ArchiveLemmas.enhanced_zip_members_spec fmt _ Hs) as (z & Hz & Hm).
  apply Forall2_length in Hm.
  destruct (DisplayLemmas.enhanced_show_results_shaped fmt ts _ Hs 0) as (items & Hitems & HF).
  apply Forall2_length in HF.
  assert (Hc : Enhanced.success_count st
               = length (List.filter enhanced_succeeded (Enhanced.conversion_results st))).
  { apply Shapes.enhanced_count. reflexivity. }
  rewrite Hz, Hitems.
  destruct (Nat.ltb_spec 1 (Enhanced.success_count st)) as [Hlt|Hle];
    (eexists; split; [reflexivity|]);
    cbn [EnhancedDisplay.final EnhancedDisplay.shown EnhancedDisplay.batch_download];
    (split; [reflexivity|]); (split; [rewrite <- HF, Hrs; exact (eq_sym Hr)|]).
  - right. split; [lia|]. exists z. split; [reflexivity|lia].
  - left. split; [exact Hle|reflexivity].
Qed.

End BatchExtras.
